(** * mcp-server-mathematica: the tool-call handler of [src/index.ts]

    A shallow embedding of the request handler, the execution adapter
    ([executeMathematicaCode]) and the derivation verifier
    ([verifyDerivation]), with the effects of the host (logging, child
    processes, the file system) made explicit as a recorded trace whose
    outcomes are chosen by an arbitrary environment. *)

From Stdlib Require Import ZArith String Ascii List Bool Lia.
From stdpp Require Import base option list gmap strings pretty.

Set Warnings "-register-all".
Local Open Scope string_scope.

(** ** JavaScript values and the coercions the handler relies on *)

Module Js.

(** A string is held as the bytes of its UTF-8 form. *)

(** A number, which this program only ever observes in three ways: its text
    under [String] (which is also its text under [JSON.stringify] when it is
    finite), whether it is zero, and whether it is finite (the JSON text
    [1e999] parses to [Infinity]). *)
Record Number : Type := {
  toText : string;
  isZero : bool;
  isFinite : bool
}.

(** An integer below [10^21] in magnitude: its text is its decimal form. *)
Definition integer (z : Z) : Number :=
  {| toText := pretty z; isZero := (z =? 0)%Z; isFinite := true |}.

(** A value as it reaches the handler in [request.params.arguments]: the
    result of parsing JSON, plus [undefined] for an absent property.  An
    object lists its own properties in enumeration order. *)
Inductive JsValue : Type :=
| JUndefined
| JNull
| JBool (b : bool)
| JNum (n : Number)
| JStr (s : string)
| JArr (elems : list JsValue)
| JObj (props : list (string * JsValue)).

(** [Array.prototype.join]: the separator between consecutive pieces. *)
Fixpoint join (sep : string) (parts : list string) : string :=
  match parts with
  | [] => ""
  | [p] => p
  | p :: rest => p ++ sep ++ join sep rest
  end.

(** Whether an object has an own property of that name. *)
Definition hasOwn (props : list (string * JsValue)) (key : string) : bool :=
  existsb (fun kv => (fst kv =? key)%string) props.

(** The pieces of a list, when every one of them is there. *)
Fixpoint all_some (parts : list (option string)) : option (list string) :=
  match parts with
  | [] => Some []
  | None :: _ => None
  | Some p :: rest =>
      match all_some rest with
      | Some ps => Some (p :: ps)
      | None => None
      end
  end.

(** [String(v)]: the text, or [None] where the conversion throws a
    [TypeError].  An array is joined with commas, [null] and [undefined]
    elements contributing the empty string and every other element its own
    conversion.  An object parsed from JSON holds no function, so an own
    property named [toString] hides the inherited method: the conversion
    then falls through [valueOf], which gives no primitive either, and
    throws.  Any other object prints as [[object Object]]. *)
Fixpoint String_ (v : JsValue) : option string :=
  match v with
  | JUndefined => Some "undefined"
  | JNull => Some "null"
  | JBool true => Some "true"
  | JBool false => Some "false"
  | JNum n => Some (toText n)
  | JStr s => Some s
  | JArr elems =>
      match all_some (map (fun e => match e with
                                    | JUndefined | JNull => Some ""
                                    | _ => String_ e
                                    end) elems) with
      | Some parts => Some (join "," parts)
      | None => None
      end
  | JObj props => if hasOwn props "toString" then None else Some "[object Object]"
  end.

(** Truthiness, as used by [!x] and [x || y]. *)
Definition truthy (v : JsValue) : bool :=
  match v with
  | JUndefined | JNull => false
  | JBool b => b
  | JNum n => negb (isZero n)
  | JStr s => negb (s =? "")%string
  | JArr _ | JObj _ => true
  end.

(** [a || b]. *)
Definition or_else (a b : JsValue) : JsValue := if truthy a then a else b.

(** [Array.isArray]. *)
Definition isArray (v : JsValue) : bool :=
  match v with JArr _ => true | _ => false end.

(** The elements of an array value (none for any other value). *)
Definition elements (v : JsValue) : list JsValue :=
  match v with JArr elems => elems | _ => [] end.

(** [String.prototype.toLowerCase] on the ASCII letters.  Characters outside
    ASCII are left as they are; none of them lowercases to a string that
    could complete one of the three case labels of the format switch. *)
Definition lower_ascii (c : ascii) : ascii :=
  let n := nat_of_ascii c in
  if ((65 <=? n) && (n <=? 90))%nat then ascii_of_nat (n + 32) else c.

Fixpoint toLowerCase (s : string) : string :=
  match s with
  | EmptyString => EmptyString
  | String c s' => String (lower_ascii c) (toLowerCase s')
  end.

(** The white space and line terminators that [String.prototype.trim]
    removes, by the bytes of their UTF-8 form.  One byte: tab, line feed,
    vertical tab, form feed, carriage return, space. *)
Definition space1 (a : nat) : bool :=
  ((9 <=? a) && (a <=? 13) || (a =? 32))%nat.

(** Two bytes: U+00A0. *)
Definition space2 (a b : nat) : bool :=
  ((a =? 194) && (b =? 160))%nat.

(** Three bytes: U+1680, U+2000 to U+200A, U+2028, U+2029, U+202F, U+205F,
    U+3000 and U+FEFF. *)
Definition space3 (a b c : nat) : bool :=
  ((a =? 225) && (b =? 154) && (c =? 128)
   || (a =? 226) && (b =? 128)
      && ((128 <=? c) && (c <=? 138) || (c =? 168) || (c =? 169) || (c =? 175))
   || (a =? 226) && (b =? 129) && (c =? 159)
   || (a =? 227) && (b =? 128) && (c =? 128)
   || (a =? 239) && (b =? 187) && (c =? 191))%nat.

Fixpoint trimStart (s : string) : string :=
  match s with
  | EmptyString => EmptyString
  | String a s1 =>
      if space1 (nat_of_ascii a) then trimStart s1
      else match s1 with
           | String b s2 =>
               if space2 (nat_of_ascii a) (nat_of_ascii b) then trimStart s2
               else match s2 with
                    | String c s3 =>
                        if space3 (nat_of_ascii a) (nat_of_ascii b) (nat_of_ascii c)
                        then trimStart s3
                        else s
                    | EmptyString => s
                    end
           | EmptyString => s
           end
  end.

(** A text that is exactly one white space character. *)
Definition is_space (s : string) : bool :=
  match s with
  | String a EmptyString => space1 (nat_of_ascii a)
  | String a (String b EmptyString) => space2 (nat_of_ascii a) (nat_of_ascii b)
  | String a (String b (String c EmptyString)) =>
      space3 (nat_of_ascii a) (nat_of_ascii b) (nat_of_ascii c)
  | _ => false
  end.

(** From the end: a character is dropped when all that follows it has been
    dropped and it is white space. *)
Fixpoint trimEnd (s : string) : string :=
  match s with
  | EmptyString => EmptyString
  | String a s' =>
      let t := trimEnd s' in
      if is_space (String a t) then EmptyString else String a t
  end.

Definition trim (s : string) : string := trimEnd (trimStart s).

(** [String.prototype.includes]. *)
Fixpoint includes (s t : string) : bool :=
  if String.prefix t s then true
  else match s with
       | EmptyString => false
       | String _ s' => includes s' t
       end.

End Js.

(** ** JSON.stringify *)

Module JSON.
Import Js.

Definition hex_digit (n : nat) : ascii :=
  ascii_of_nat (if (n <? 10)%nat then 48 + n else 87 + n).

(** One character inside a JSON string literal ([QuoteJSONString]): the
    quote and the backslash are escaped, the control characters below 0x20
    get their short escape or a [\u00xx] form, everything else is copied. *)
Definition quote_char (c : ascii) : string :=
  let n := nat_of_ascii c in
  if (n =? 34)%nat then "\" ++ String c ""
  else if (n =? 92)%nat then "\\"
  else if (n =? 8)%nat then "\b"
  else if (n =? 12)%nat then "\f"
  else if (n =? 10)%nat then "\n"
  else if (n =? 13)%nat then "\r"
  else if (n =? 9)%nat then "\t"
  else if (n <? 32)%nat then
    "\u00" ++ String (hex_digit (n / 16)) (String (hex_digit (n mod 16)) "")
  else String c "".

Fixpoint quote_body (s : string) : string :=
  match s with
  | EmptyString => ""
  | String c s' => quote_char c ++ quote_body s'
  end.

Definition dquote : string := String "034"%char "".

Definition quote (s : string) : string := dquote ++ quote_body s ++ dquote.

(** [JSON.stringify(v)] without indentation.  [undefined] has no JSON text
    ([None]); inside an array it is written [null], inside an object its
    property is left out.  A number that is not finite is written [null]. *)
Fixpoint stringify (v : JsValue) : option string :=
  match v with
  | JUndefined => None
  | JNull => Some "null"
  | JBool true => Some "true"
  | JBool false => Some "false"
  | JNum n => Some (if isFinite n then toText n else "null")
  | JStr s => Some (quote s)
  | JArr elems =>
      Some ("[" ++ join "," (map (fun e => default "null" (stringify e)) elems) ++ "]")
  | JObj props =>
      Some ("{" ++ join "," (flat_map (fun kv =>
                                match stringify (snd kv) with
                                | Some t => [quote (fst kv) ++ ":" ++ t]
                                | None => []
                                end) props) ++ "}")
  end.

End JSON.

(** ** The host: errors, effects and their trace *)

Module Host.

(** [ErrorCode] of the protocol SDK, as far as the server uses it. *)
Inductive ErrorCode : Type := InvalidParams | MethodNotFound | InternalError.

Definition code_number (c : ErrorCode) : Z :=
  match c with
  | InvalidParams => -32602
  | MethodNotFound => -32601
  | InternalError => -32603
  end.

(** A thrown value: an [McpError] built by the server, an [Error] raised by
    the runtime ([child_process], [fs]), or the [TypeError] of a failed
    conversion. *)
Inductive JsError : Type :=
| McpError (code : ErrorCode) (msg : string)
| Error (msg : string)
| TypeError (msg : string).

(** [error.message].  The SDK's [McpError] constructor prefixes the message
    it is given with the numeric code. *)
Definition message (e : JsError) : string :=
  match e with
  | McpError c m => "MCP error " ++ pretty (code_number c) ++ ": " ++ m
  | Error m => m
  | TypeError m => m
  end.

(** How a promisified [exec] settles: resolved with the two captured
    streams, or rejected (non-zero exit status, spawn failure). *)
Inductive ExecOutcome : Type :=
| Exited (stdout stderr : string)
| ExecFailed (msg : string).

(** How a file-system promise settles: [None] resolved, [Some m] rejected
    with an [Error] of message [m]. *)
Definition IoOutcome : Type := option string.

(** What the process did to the outside world, in order. *)
Inductive Event : Type :=
| EvLog (type msg : string)
| EvExec (command : string) (outcome : ExecOutcome)
| EvWriteFile (path data : string) (outcome : IoOutcome)
| EvUnlink (path : string) (outcome : IoOutcome).

(** The outside world.  Every answer may depend on all that happened before,
    so that the same command can succeed now and fail later. *)
Record Env : Type := {
  tmpdir : string;
  (** [path.join] of the platform *)
  path_join : string -> string -> string;
  Date_now : list Event -> Z;
  (** [Math.random().toString(36).substring(7)] *)
  random_suffix : list Event -> string;
  exec_outcome : list Event -> string -> ExecOutcome;
  writeFile_outcome : list Event -> string -> string -> IoOutcome;
  unlink_outcome : list Event -> string -> IoOutcome
}.

(** The same world, except for how deletions turn out. *)
Definition with_unlink (env : Env) (f : list Event -> string -> IoOutcome) : Env :=
  {| tmpdir := tmpdir env;
     path_join := path_join env;
     Date_now := Date_now env;
     random_suffix := random_suffix env;
     exec_outcome := exec_outcome env;
     writeFile_outcome := writeFile_outcome env;
     unlink_outcome := f |}.

(** How a block of code completes. *)
Inductive Completion (A : Type) : Type :=
| Normal (a : A)
| Throw (e : JsError).
Arguments Normal {A} a.
Arguments Throw {A} e.

(** An asynchronous computation: given the world and the events so far, a
    completion and the events it adds. *)
Definition M (A : Type) : Type := Env -> list Event -> Completion A * list Event.

Definition ret {A} (a : A) : M A := fun _ _ => (Normal a, []).

Definition throw {A} (e : JsError) : M A := fun _ _ => (Throw e, []).

Definition bind {A B} (m : M A) (k : A -> M B) : M B :=
  fun env h =>
    match m env h with
    | (Normal a, t1) => let (r, t2) := k a env (h ++ t1)%list in (r, (t1 ++ t2)%list)
    | (Throw e, t1) => (Throw e, t1)
    end.

(** [try { body } catch (error) { handler error }] *)
Definition try_catch {A} (body : M A) (handler : JsError -> M A) : M A :=
  fun env h =>
    match body env h with
    | (Normal a, t1) => (Normal a, t1)
    | (Throw e, t1) => let (r, t2) := handler e env (h ++ t1)%list in (r, (t1 ++ t2)%list)
    end.

(** [try { body } finally { fin }]: [fin] runs however [body] completes and
    keeps that completion unless it throws itself. *)
Definition try_finally {A} (body : M A) (fin : M unit) : M A :=
  fun env h =>
    let (r, t1) := body env h in
    match fin env (h ++ t1)%list with
    | (Normal _, t2) => (r, (t1 ++ t2)%list)
    | (Throw e, t2) => (Throw e, (t1 ++ t2)%list)
    end.

Declare Scope js_scope.
Delimit Scope js_scope with js.
Notation "x <- m ;; k" := (bind m (fun x => k))
  (at level 100, m at next level, right associativity) : js_scope.
Notation "m ;; k" := (bind m (fun _ => k))
  (at level 100, right associativity) : js_scope.
Local Open Scope js_scope.

(** [log(type, message, data)] writes one line to standard error; the
    optional [data] is not recorded. *)
Definition log (type msg : string) : M unit :=
  fun _ _ => (Normal tt, [EvLog type msg]).

(** [await execAsync(command)] *)
Definition execAsync (command : string) : M (string * string) :=
  fun env h =>
    let o := exec_outcome env h command in
    (match o with
     | Exited out err => Normal (out, err)
     | ExecFailed m => Throw (Error m)
     end, [EvExec command o]).

(** [await writeFile(path, data, 'utf8')] *)
Definition writeFile (path data : string) : M unit :=
  fun env h =>
    let o := writeFile_outcome env h path data in
    (match o with None => Normal tt | Some m => Throw (Error m) end,
     [EvWriteFile path data o]).

(** [await unlink(path)] *)
Definition unlink (path : string) : M unit :=
  fun env h =>
    let o := unlink_outcome env h path in
    (match o with None => Normal tt | Some m => Throw (Error m) end,
     [EvUnlink path o]).

(** [String(v)] as a step of a computation. *)
Definition toString (v : Js.JsValue) : M string :=
  match Js.String_ v with
  | Some s => ret s
  | None => throw (TypeError "Cannot convert object to primitive value")
  end.

End Host.

(** ** The server *)

Module Server.
Import Js Host.
Local Open Scope js_scope.

(** *** Engine reachability probe *)

Definition checkMathematicaInstallation : M bool :=
  try_catch
    (log "Setup" "Checking Mathematica installation..." ;;
     _ <- execAsync "wolframscript -help" ;;
     log "Setup" "Mathematica installation verified" ;;
     ret true)
    (fun error =>
       log "Error" "Mathematica not found or not accessible" ;;
       ret false).

(** *** Execution adapter *)

(** The [switch] on [format.toLowerCase()]. *)
Definition formatOption (format : string) : string :=
  let f := toLowerCase format in
  if (f =? "latex")%string then "-format latex"
  else if (f =? "mathematica")%string then "-format mathematica"
  else "-format text".

Definition tempFileName (stamp : Z) (suffix : string) : string :=
  "mcp_mathematica_" ++ pretty stamp ++ "_" ++ suffix ++ ".wl".

Definition command (formatOption tempFilePath : string) : string :=
  "wolframscript " ++ formatOption ++ " -file " ++ JSON.dquote ++ tempFilePath ++ JSON.dquote.

(** [join(tmpdir(), tempFileName)], with the clock and the random source
    read when the call starts. *)
Definition tempFilePath (env : Env) (h : list Event) : string :=
  path_join env (tmpdir env) (tempFileName (Date_now env h) (random_suffix env h)).

Definition executeMathematicaCode (code format : string) : M string :=
  fun env h =>
  let formatOption := formatOption format in
  let tempFilePath := tempFilePath env h in
  try_finally
    (try_catch
       (log "API" "Executing Mathematica code" ;;
        writeFile tempFilePath code ;;
        out <- execAsync (command formatOption tempFilePath) ;;
        (if (snd out =? "")%string then ret tt
         else log "Warning" "Mathematica execution produced stderr output") ;;
        log "API" "Mathematica execution completed successfully" ;;
        ret (trim (fst out)))
       (fun error =>
          log "Error" "Failed to execute Mathematica code" ;;
          throw (McpError InternalError
                   ("Failed to execute Mathematica code: " ++ message error))))
    (try_catch
       (unlink tempFilePath)
       (fun unlinkError => log "Warning" "Failed to delete temporary file"))
    env h.

(** *** Derivation verifier *)

Definition nl : string := String "010"%char "".

(** A comment of the engine's language. *)
Definition wl_comment (body : string) : string := "(" ++ "* " ++ body ++ " *" ++ ")".

Definition wl_string (body : string) : string := JSON.dquote ++ body ++ JSON.dquote.

(** The program handed to the engine: the template literal of
    [verifyDerivation], line by line, with the steps spliced in as JSON. *)
Definition verificationCode (steps : list JsValue) : string :=
  join nl [
    "";
    "      steps = " ++ default "" (JSON.stringify (JArr steps)) ++ ";";
    "      results = {};";
    "      ";
    "      " ++ wl_comment "Check if each step follows from the previous";
    "      For[i = 2, i <= Length[steps], i++,";
    "        prev = ToExpression[steps[[i-1]]];";
    "        current = ToExpression[steps[[i]]];";
    "        ";
    "        " ++ wl_comment "Check if they're mathematically equivalent";
    "        equivalent = Simplify[prev == current];";
    "        ";
    "        " ++ wl_comment "Store the result";
    "        AppendTo[results, {";
    "          " ++ wl_string "step" ++ " -> i,";
    "          " ++ wl_string "expression" ++ " -> steps[[i]],";
    "          " ++ wl_string "equivalent" ++ " -> equivalent,";
    "          " ++ wl_string "simplification" ++ " -> Simplify[current]";
    "        }];";
    "      ];";
    "      ";
    "      " ++ wl_comment "Format the results";
    "      FormattedResults = " ++ wl_string "Derivation Verification Results:\n\n" ++ ";";
    "      ";
    "      For[i = 1, i <= Length[results], i++,";
    "        result = results[[i]];";
    "        stepNum = result[" ++ wl_string "step" ++ "];";
    "        expr = result[" ++ wl_string "expression" ++ "];";
    "        isEquiv = result[" ++ wl_string "equivalent" ++ "];";
    "        ";
    "        FormattedResults = FormattedResults <> ";
    "          " ++ wl_string "Step " ++ " <> ToString[stepNum] <> " ++ wl_string ": "
                 ++ " <> expr <> " ++ wl_string "\n" ++ " <>";
    "          " ++ wl_string "  Valid: " ++ " <> ToString[isEquiv] <> "
                 ++ wl_string "\n\n" ++ ";";
    "      ];";
    "      ";
    "      FormattedResults";
    "    "
  ].

Definition verifyDerivation (steps : list JsValue) (format : string) : M string :=
  if (length steps <? 2)%nat then
    throw (McpError InvalidParams "At least two steps are required for a derivation")
  else
    try_catch
      (log "API" "Verifying mathematical derivation" ;;
       executeMathematicaCode (verificationCode steps) format)
      (fun error =>
         log "Error" "Failed to verify derivation" ;;
         throw (McpError InternalError
                  ("Failed to verify derivation: " ++ message error))).

(** *** Tool-call handler *)

Record CallToolRequest : Type := {
  name : string;
  (** [request.params.arguments], which the protocol lets a client omit *)
  arguments : option (gmap string JsValue)
}.

Record TextContent : Type := { type : string; text : string }.

(** The handler's return value; [isError] is [None] where the object
    literal has no such property. *)
Record CallToolResult : Type := {
  content : list TextContent;
  isError : option bool
}.

(** [request.params.arguments?.key] *)
Definition argument (request : CallToolRequest) (key : string) : JsValue :=
  match arguments request with
  | None => JUndefined
  | Some args => default JUndefined (args !! key)
  end.

Definition text_of_unavailable : string :=
  "Error: Mathematica (wolframscript) is not installed or not accessible. Please make sure Mathematica is installed and wolframscript is in your PATH.".

Definition unavailable : CallToolResult :=
  {| content := [{| type := "text"; text := text_of_unavailable |}];
     isError := Some true |}.

Definition success (result : string) : CallToolResult :=
  {| content := [{| type := "text"; text := result |}]; isError := None |}.

Definition failure (text : string) : CallToolResult :=
  {| content := [{| type := "text"; text := text |}]; isError := Some true |}.

(** The [switch] on [request.params.name]. *)
Definition dispatch (request : CallToolRequest) : M CallToolResult :=
  if (name request =? "execute_mathematica")%string then
    log "Tool" "Executing execute_mathematica tool" ;;
    code <- toString (argument request "code") ;;
    format <- toString (or_else (argument request "format") (JStr "text")) ;;
    if (code =? "")%string then
      throw (McpError InvalidParams "Mathematica code is required")
    else
      try_catch
        (result <- executeMathematicaCode code format ;;
         ret (success result))
        (fun error =>
           log "Error" "Tool execution failed" ;;
           ret (failure ("Error executing Mathematica code: " ++ message error)))
  else if (name request =? "verify_derivation")%string then
    log "Tool" "Executing verify_derivation tool" ;;
    let steps := argument request "steps" in
    format <- toString (or_else (argument request "format") (JStr "text")) ;;
    if negb (truthy steps) || negb (isArray steps) || (length (elements steps) <? 2)%nat then
      throw (McpError InvalidParams "At least two derivation steps are required")
    else
      try_catch
        (result <- verifyDerivation (elements steps) format ;;
         ret (success result))
        (fun error =>
           log "Error" "Tool execution failed" ;;
           ret (failure ("Error verifying derivation: " ++ message error)))
  else
    log "Error" ("Unknown tool: " ++ name request) ;;
    throw (McpError MethodNotFound ("Unknown tool: " ++ name request)).

Definition handler (request : CallToolRequest) : M CallToolResult :=
  mathematicaAvailable <- checkMathematicaInstallation ;;
  if negb mathematicaAvailable then ret unavailable
  else dispatch request.

End Server.

(** ** Observing a trace *)

Module Trace.
Import Host.

(** The commands of the child processes spawned, in order. *)
Fixpoint spawned (t : list Event) : list string :=
  match t with
  | [] => []
  | EvExec command _ :: t' => command :: spawned t'
  | _ :: t' => spawned t'
  end.

(** The files written, with their contents. *)
Fixpoint written (t : list Event) : list (string * string) :=
  match t with
  | [] => []
  | EvWriteFile path data _ :: t' => (path, data) :: written t'
  | _ :: t' => written t'
  end.

(** The paths for which a deletion was attempted. *)
Fixpoint unlinked (t : list Event) : list string :=
  match t with
  | [] => []
  | EvUnlink path _ :: t' => path :: unlinked t'
  | _ :: t' => unlinked t'
  end.

(** A child process or a file write that failed with message [m]. *)
Definition failed (m : string) (e : Event) : Prop :=
  match e with
  | EvExec _ (ExecFailed m') => m' = m
  | EvWriteFile _ _ (Some m') => m' = m
  | _ => False
  end.

End Trace.

(** ** The shapes a run can take *)

Module Runs.
Import Js Host Server.

(** The [finally] block: one deletion attempt, and a warning when it fails. *)
Inductive cleanup (path : string) : list Event -> Prop :=
| cleanup_done :
    cleanup path [EvUnlink path None]
| cleanup_failed m :
    cleanup path [EvUnlink path (Some m);
                  EvLog "Warning" "Failed to delete temporary file"].

(** The [try] and [catch] blocks: the three ways through them, with the
    completion each one leaves. *)
Inductive attempt (code cmd path : string) : Completion string -> list Event -> Prop :=
| attempt_write_failed m :
    attempt code cmd path
      (Throw (McpError InternalError ("Failed to execute Mathematica code: " ++ m)))
      [EvLog "API" "Executing Mathematica code";
       EvWriteFile path code (Some m);
       EvLog "Error" "Failed to execute Mathematica code"]
| attempt_exec_failed m :
    attempt code cmd path
      (Throw (McpError InternalError ("Failed to execute Mathematica code: " ++ m)))
      [EvLog "API" "Executing Mathematica code";
       EvWriteFile path code None;
       EvExec cmd (ExecFailed m);
       EvLog "Error" "Failed to execute Mathematica code"]
| attempt_succeeded out err :
    attempt code cmd path
      (Normal (trim out))
      ([EvLog "API" "Executing Mathematica code";
        EvWriteFile path code None;
        EvExec cmd (Exited out err)]
       ++ (if (err =? "")%string then []
           else [EvLog "Warning" "Mathematica execution produced stderr output"])
       ++ [EvLog "API" "Mathematica execution completed successfully"])%list.

Definition probe_command : string := "wolframscript -help".

(** The two ways the reachability probe can go. *)
Inductive probe : bool -> list Event -> Prop :=
| probe_reached out err :
    probe true [EvLog "Setup" "Checking Mathematica installation...";
                EvExec probe_command (Exited out err);
                EvLog "Setup" "Mathematica installation verified"]
| probe_unreachable m :
    probe false [EvLog "Setup" "Checking Mathematica installation...";
                 EvExec probe_command (ExecFailed m);
                 EvLog "Error" "Mathematica not found or not accessible"].

(** The text of the reply for a failed [execute_mathematica] run. *)
Definition execute_failure_text (m : string) : string :=
  "Error executing Mathematica code: " ++
  message (McpError InternalError ("Failed to execute Mathematica code: " ++ m)).

(** The text of the reply for a failed [verify_derivation] run. *)
Definition verify_failure_text (m : string) : string :=
  "Error verifying derivation: " ++
  message (McpError InternalError
             ("Failed to verify derivation: " ++
              message (McpError InternalError
                         ("Failed to execute Mathematica code: " ++ m)))).

(** The reply of a tool case to how its adapter or verifier run completed,
    and the log line that closes a failed run. *)
Definition reply_of (prefix : string) (c : Completion string) : Completion CallToolResult :=
  match c with
  | Normal result => Normal (success result)
  | Throw error => Normal (failure (prefix ++ message error))
  end.

Definition closing_of (c : Completion string) : list Event :=
  match c with
  | Normal _ => []
  | Throw _ => [EvLog "Error" "Tool execution failed"]
  end.

(** The [format] the handler passes on: [String(format || "text")]. *)
Definition format_of (request : CallToolRequest) : option string :=
  String_ (or_else (argument request "format") (JStr "text")).

(** The check of the [steps] argument fails. *)
Definition steps_rejected (request : CallToolRequest) : bool :=
  negb (truthy (argument request "steps"))
  || negb (isArray (argument request "steps"))
  || (length (elements (argument request "steps")) <? 2)%nat.

(** The ways through the [switch] of the handler: a conversion throws, an
    argument check throws, the name is unknown, or the adapter or the
    verifier runs and its completion becomes a reply. *)
Inductive dispatched (request : CallToolRequest) (env : Env) (h : list Event)
  : Completion CallToolResult -> list Event -> Prop :=
| execute_unconvertible :
    name request = "execute_mathematica" ->
    String_ (argument request "code") = None \/ format_of request = None ->
    dispatched request env h
      (Throw (TypeError "Cannot convert object to primitive value"))
      [EvLog "Tool" "Executing execute_mathematica tool"]
| execute_rejected format :
    name request = "execute_mathematica" ->
    String_ (argument request "code") = Some "" ->
    format_of request = Some format ->
    dispatched request env h
      (Throw (McpError InvalidParams "Mathematica code is required"))
      [EvLog "Tool" "Executing execute_mathematica tool"]
| execute_run code format :
    name request = "execute_mathematica" ->
    String_ (argument request "code") = Some code ->
    code <> "" ->
    format_of request = Some format ->
    let inner := executeMathematicaCode code format env
                   (h ++ [EvLog "Tool" "Executing execute_mathematica tool"])%list in
    dispatched request env h
      (reply_of "Error executing Mathematica code: " (fst inner))
      (EvLog "Tool" "Executing execute_mathematica tool"
         :: snd inner ++ closing_of (fst inner))%list
| verify_unconvertible :
    name request = "verify_derivation" ->
    format_of request = None ->
    dispatched request env h
      (Throw (TypeError "Cannot convert object to primitive value"))
      [EvLog "Tool" "Executing verify_derivation tool"]
| verify_rejected format :
    name request = "verify_derivation" ->
    format_of request = Some format ->
    steps_rejected request = true ->
    dispatched request env h
      (Throw (McpError InvalidParams "At least two derivation steps are required"))
      [EvLog "Tool" "Executing verify_derivation tool"]
| verify_run format :
    name request = "verify_derivation" ->
    format_of request = Some format ->
    steps_rejected request = false ->
    let inner := verifyDerivation (elements (argument request "steps")) format env
                   (h ++ [EvLog "Tool" "Executing verify_derivation tool"])%list in
    dispatched request env h
      (reply_of "Error verifying derivation: " (fst inner))
      (EvLog "Tool" "Executing verify_derivation tool"
         :: snd inner ++ closing_of (fst inner))%list
| unknown_name :
    name request <> "execute_mathematica" ->
    name request <> "verify_derivation" ->
    dispatched request env h
      (Throw (McpError MethodNotFound ("Unknown tool: " ++ name request)))
      [EvLog "Error" ("Unknown tool: " ++ name request)].

End Runs.

(** ** Worlds used as concrete inputs *)

Module Worlds.
Import Js Host Server.

(** The engine is installed and evaluates everything to [4]. *)
Definition reachable : Env :=
  {| tmpdir := "/tmp";
     path_join := fun dir file => dir ++ "/" ++ file;
     Date_now := fun _ => 1700000000000%Z;
     random_suffix := fun _ => "k3x9a";
     exec_outcome := fun _ _ => Exited ("4" ++ nl) "";
     writeFile_outcome := fun _ _ _ => None;
     unlink_outcome := fun _ _ => None |}.

(** No [wolframscript] on the path: every command fails. *)
Definition unreachable : Env :=
  {| tmpdir := "/tmp";
     path_join := fun dir file => dir ++ "/" ++ file;
     Date_now := fun _ => 1700000000000%Z;
     random_suffix := fun _ => "k3x9a";
     exec_outcome := fun _ command => ExecFailed ("Command failed: " ++ command);
     writeFile_outcome := fun _ _ _ => None;
     unlink_outcome := fun _ _ => None |}.

(** The engine is installed but the temporary directory cannot be written. *)
Definition disk_full : Env :=
  {| tmpdir := "/tmp";
     path_join := fun dir file => dir ++ "/" ++ file;
     Date_now := fun _ => 1700000000000%Z;
     random_suffix := fun _ => "k3x9a";
     exec_outcome := fun _ _ => Exited ("4" ++ nl) "";
     writeFile_outcome := fun _ _ _ => Some "ENOSPC: no space left on device, write";
     unlink_outcome := fun _ _ => Some "ENOENT: no such file or directory, unlink" |}.

(** The probe works, every run of a program file fails. *)
Definition failing_engine : Env :=
  {| tmpdir := "/tmp";
     path_join := fun dir file => dir ++ "/" ++ file;
     Date_now := fun _ => 1700000000000%Z;
     random_suffix := fun _ => "k3x9a";
     exec_outcome := fun _ command =>
       if (command =? "wolframscript -help")%string then Exited "" ""
       else ExecFailed ("Command failed: " ++ command);
     writeFile_outcome := fun _ _ _ => None;
     unlink_outcome := fun _ _ => None |}.

(** Some calls. *)
Definition call (tool : string) (args : list (string * JsValue)) : CallToolRequest :=
  {| name := tool; arguments := Some (list_to_map args) |}.

Definition two_plus_two : CallToolRequest :=
  call "execute_mathematica" [("code", JStr "2 + 2"); ("format", JStr "text")].

Definition missing_code : CallToolRequest :=
  call "execute_mathematica" [("format", JStr "text")].

Definition one_step : CallToolRequest :=
  call "verify_derivation" [("steps", JArr [JStr "x^2"])].

Definition two_steps : CallToolRequest :=
  call "verify_derivation" [("steps", JArr [JStr "x^2 - y^2"; JStr "(x-y)*(x+y)"])].

Definition steps_as_string : CallToolRequest :=
  call "verify_derivation" [("steps", JStr "x^2 - y^2")].

Definition unknown_tool : CallToolRequest :=
  {| name := "integrate"; arguments := None |}.

End Worlds.

(** ** The tool registry *)

Module Registry.
Import Js Host Server.
Local Open Scope js_scope.

(** [v.key] for an object literal (the first property of that name);
    [undefined] for a missing property or a value that is no object. *)
Fixpoint lookup_prop (props : list (string * JsValue)) (key : string) : JsValue :=
  match props with
  | [] => JUndefined
  | (k, v) :: rest => if (k =? key)%string then v else lookup_prop rest key
  end.

Definition get (v : JsValue) (key : string) : JsValue :=
  match v with
  | JObj props => lookup_prop props key
  | _ => JUndefined
  end.

(** The array returned under [tools] by the handler that lists the tools. *)
Definition tools : JsValue :=
  JArr [
    JObj [
      ("name", JStr "execute_mathematica");
      ("description", JStr "Execute Mathematica code and return the result");
      ("inputSchema", JObj [
         ("type", JStr "object");
         ("properties", JObj [
            ("code", JObj [
               ("type", JStr "string");
               ("description", JStr "Mathematica code to execute")]);
            ("format", JObj [
               ("type", JStr "string");
               ("description", JStr "Output format (text, latex, or mathematica)");
               ("enum", JArr [JStr "text"; JStr "latex"; JStr "mathematica"]);
               ("default", JStr "text")])]);
         ("required", JArr [JStr "code"])])];
    JObj [
      ("name", JStr "verify_derivation");
      ("description", JStr "Verify a mathematical derivation step by step");
      ("inputSchema", JObj [
         ("type", JStr "object");
         ("properties", JObj [
            ("steps", JObj [
               ("type", JStr "array");
               ("description",
                JStr "Array of mathematical expressions representing steps in a derivation");
               ("items", JObj [("type", JStr "string")])]);
            ("format", JObj [
               ("type", JStr "string");
               ("description", JStr "Output format (text, latex, or mathematica)");
               ("enum", JArr [JStr "text"; JStr "latex"; JStr "mathematica"]);
               ("default", JStr "text")])]);
         ("required", JArr [JStr "steps"])])]
  ].

(** The handler of [ListToolsRequestSchema]. *)
Definition listTools : M JsValue :=
  log "Tools" "Listing available tools" ;;
  ret (JObj [("tools", tools)]).

(** The names a client reads off a listing: [result.tools.map(t => t.name)],
    keeping the names that are strings. *)
Definition toolNames (result : JsValue) : list string :=
  flat_map (fun t => match get t "name" with JStr n => [n] | _ => [] end)
           (elements (get result "tools")).

(** The formats a tool's schema enumerates, and the default it declares. *)
Definition formatSchema (tool : JsValue) : JsValue :=
  get (get (get tool "inputSchema") "properties") "format".

Definition formatEnum (tool : JsValue) : list string :=
  flat_map (fun v => match v with JStr f => [f] | _ => [] end)
           (elements (get (formatSchema tool) "enum")).

End Registry.

(** ** What the integration tests accept *)

Module Checks.
Import Js Host Server.

(** The shape every test of a tool call asks of the reply first: a
    [content] array of exactly one block, of type [text]. *)
Definition one_text_block (result : CallToolResult) : bool :=
  match content result with
  | [block] => (type block =? "text")%string
  | _ => false
  end.

(** [testExecuteMathematicaError]: the reply must be flagged as an error
    and the text of its first block must include the tool's error line. *)
Definition accepts_execute_error (result : CallToolResult) : bool :=
  match isError result with
  | Some true =>
      match content result with
      | block :: _ => includes (text block) "Error executing Mathematica code"
      | [] => false
      end
  | _ => false
  end.

End Checks.

(** ** Further worlds and calls *)

Module MoreWorlds.
Import Js Host Server Worlds.

(** The engine answers, with a complaint on its error stream. *)
Definition noisy : Env :=
  {| tmpdir := "/tmp";
     path_join := fun dir file => dir ++ "/" ++ file;
     Date_now := fun _ => 1700000000000%Z;
     random_suffix := fun _ => "k3x9a";
     exec_outcome := fun _ _ => Exited ("  4 " ++ nl) "Syntax::sntxi: Incomplete expression";
     writeFile_outcome := fun _ _ _ => None;
     unlink_outcome := fun _ _ => None |}.

Definition empty_array_code : CallToolRequest :=
  call "execute_mathematica" [("code", JArr [])].

Definition missing_steps : CallToolRequest :=
  call "verify_derivation" [("format", JStr "latex")].

Definition falsy_format : CallToolRequest :=
  call "execute_mathematica" [("code", JStr "2 + 2"); ("format", JNum (integer 0))].

(** The engine answers the probe of the first call only: once a probe has
    succeeded, every later command fails. *)
Definition flaky : Env :=
  {| tmpdir := "/tmp";
     path_join := fun dir file => dir ++ "/" ++ file;
     Date_now := fun _ => 1700000000000%Z;
     random_suffix := fun _ => "k3x9a";
     exec_outcome := fun h command =>
       if existsb (fun e => match e with EvExec _ (Exited _ _) => true | _ => false end) h
       then ExecFailed ("Command failed: " ++ command)
       else Exited "" "";
     writeFile_outcome := fun _ _ _ => None;
     unlink_outcome := fun _ _ => None |}.

(** An object with a property of its own called [toString]. *)
Definition opaque : JsValue := JObj [("toString", JNum (integer 1))].

Definition opaque_code : CallToolRequest :=
  call "execute_mathematica" [("code", opaque)].

End MoreWorlds.

(** ** Further observations of a trace *)

Module Observations.
Import Host Runs.

(** The probe of the call succeeded. *)
Definition probe_reached (t : list Event) : Prop :=
  exists out err, In (EvExec probe_command (Exited out err)) t.

(** Some child process or file write failed. *)
Definition some_failure (t : list Event) : Prop :=
  exists m, Exists (Trace.failed m) t.

(** No underscore among the characters of a string. *)
Fixpoint plain (s : string) : Prop :=
  match s with
  | EmptyString => True
  | String c s' => c <> "_"%char /\ plain s'
  end.

End Observations.

(** ** How the code runs: one lemma per function *)

Module RunFacts.
Import Js Host Server Trace Runs.

Lemma spawned_app t1 t2 : spawned (t1 ++ t2)%list = (spawned t1 ++ spawned t2)%list.
Proof.
  induction t1 as [|e t1 IH]; [reflexivity|].
  destruct e; simpl; rewrite IH; reflexivity.
Qed.

Lemma written_app t1 t2 : written (t1 ++ t2)%list = (written t1 ++ written t2)%list.
Proof.
  induction t1 as [|e t1 IH]; [reflexivity|].
  destruct e; simpl; rewrite IH; reflexivity.
Qed.

Lemma unlinked_app t1 t2 : unlinked (t1 ++ t2)%list = (unlinked t1 ++ unlinked t2)%list.
Proof.
  induction t1 as [|e t1 IH]; [reflexivity|].
  destruct e; simpl; rewrite IH; reflexivity.
Qed.

(** Whatever the world answers, a call of the adapter is one attempt
    followed by the cleanup, and completes as the attempt did. *)
Lemma executeMathematicaCode_run code format env h :
  exists body tail,
    snd (executeMathematicaCode code format env h) = (body ++ tail)%list /\
    attempt code (command (formatOption format) (tempFilePath env h)) (tempFilePath env h)
      (fst (executeMathematicaCode code format env h)) body /\
    cleanup (tempFilePath env h) tail.
Proof.
  unfold executeMathematicaCode, try_finally, try_catch, bind, writeFile, execAsync,
    unlink, log, ret, throw.
  cbn [fst snd].
  set (path := tempFilePath env h).
  set (cmd := command (formatOption format) path).
  destruct (writeFile_outcome env _ path code) as [m|]; cbn.
  - pose proof (attempt_write_failed code cmd path m) as A.
    destruct (unlink_outcome env _ path) as [mu|]; cbn;
      eexists _, _; (split; [|split; [exact A|constructor]]); reflexivity.
  - destruct (exec_outcome env _ cmd) as [out err|m]; cbn.
    + pose proof (attempt_succeeded code cmd path out err) as A.
      destruct (err =? "")%string; cbn in A |- *;
        destruct (unlink_outcome env _ path) as [mu|]; cbn;
        eexists _, _; (split; [|split; [exact A|constructor]]); reflexivity.
    + pose proof (attempt_exec_failed code cmd path m) as A.
      destruct (unlink_outcome env _ path) as [mu|]; cbn;
        eexists _, _; (split; [|split; [exact A|constructor]]); reflexivity.
Qed.

Lemma checkMathematicaInstallation_run env h :
  exists b t,
    checkMathematicaInstallation env h = (Normal b, t) /\ probe b t /\
    t !! 1%nat = Some (EvExec probe_command
                  (exec_outcome env
                     (h ++ [EvLog "Setup" "Checking Mathematica installation..."])%list
                     probe_command)).
Proof.
  unfold checkMathematicaInstallation, try_catch, bind, execAsync, log, ret.
  cbn. fold probe_command.
  destruct (exec_outcome env _ probe_command) as [out err|m]; cbn;
    eexists _, _; (split; [reflexivity|split; [constructor|reflexivity]]).
Qed.

(** A call is the probe, then either the fixed reply or the dispatch. *)
Lemma handler_run request env h :
  exists b t0,
    checkMathematicaInstallation env h = (Normal b, t0) /\ probe b t0 /\
    handler request env h =
      if b then (fst (dispatch request env (h ++ t0)%list),
                 (t0 ++ snd (dispatch request env (h ++ t0)%list))%list)
      else (Normal unavailable, t0).
Proof.
  destruct (checkMathematicaInstallation_run env h) as (b & t0 & Hc & Hp & _).
  exists b, t0. split; [exact Hc|]. split; [exact Hp|].
  unfold handler, bind. rewrite Hc.
  destruct b; cbn.
  - destruct (dispatch request env _) as [r t]. reflexivity.
  - rewrite app_nil_r. reflexivity.
Qed.

(** The verifier with at least two steps: one log line, one run of the
    adapter on the generated program, and the error rewrapped if any. *)
Lemma verifyDerivation_run steps format env h :
  (2 <= length steps)%nat ->
  let inner := executeMathematicaCode (verificationCode steps) format env
                 (h ++ [EvLog "API" "Verifying mathematical derivation"])%list in
  verifyDerivation steps format env h =
    match fst inner with
    | Normal result =>
        (Normal result, EvLog "API" "Verifying mathematical derivation" :: snd inner)
    | Throw error =>
        (Throw (McpError InternalError ("Failed to verify derivation: " ++ message error)),
         EvLog "API" "Verifying mathematical derivation"
           :: (snd inner ++ [EvLog "Error" "Failed to verify derivation"])%list)
    end.
Proof.
  intros Hlen inner. unfold verifyDerivation.
  destruct (length steps <? 2)%nat eqn:Hlt; [apply Nat.ltb_lt in Hlt; lia|].
  cbv [try_catch bind log throw]. fold inner.
  destruct inner as [[result|error] t]; cbn [fst snd app]; reflexivity.
Qed.

(** The [execute_mathematica] case, when both conversions succeed. *)
Lemma dispatch_execute_run request env h code format :
  name request = "execute_mathematica" ->
  String_ (argument request "code") = Some code ->
  String_ (or_else (argument request "format") (JStr "text")) = Some format ->
  let inner := executeMathematicaCode code format env
                 (h ++ [EvLog "Tool" "Executing execute_mathematica tool"])%list in
  dispatch request env h =
    if (code =? "")%string then
      (Throw (McpError InvalidParams "Mathematica code is required"),
       [EvLog "Tool" "Executing execute_mathematica tool"])
    else
      match fst inner with
      | Normal result =>
          (Normal (success result),
           EvLog "Tool" "Executing execute_mathematica tool" :: snd inner)
      | Throw error =>
          (Normal (failure ("Error executing Mathematica code: " ++ message error)),
           EvLog "Tool" "Executing execute_mathematica tool"
             :: (snd inner ++ [EvLog "Error" "Tool execution failed"])%list)
      end.
Proof.
  intros Hname Hcode Hformat inner. unfold dispatch. rewrite Hname.
  cbn [String.eqb Ascii.eqb Bool.eqb].
  cbv [try_catch bind log throw ret toString]. rewrite Hcode, Hformat.
  cbn [app]. rewrite !app_nil_r.
  destruct (code =? "")%string; [reflexivity|].
  fold inner. destruct inner as [[result|error] t]; cbn [fst snd app];
    rewrite ?app_nil_r; reflexivity.
Qed.

(** The [execute_mathematica] case, when a conversion throws. *)
Lemma dispatch_execute_type_error request env h :
  name request = "execute_mathematica" ->
  String_ (argument request "code") = None \/
  String_ (or_else (argument request "format") (JStr "text")) = None ->
  dispatch request env h =
    (Throw (TypeError "Cannot convert object to primitive value"),
     [EvLog "Tool" "Executing execute_mathematica tool"]).
Proof.
  intros Hname Hnone. unfold dispatch. rewrite Hname.
  cbn [String.eqb Ascii.eqb Bool.eqb].
  cbv [try_catch bind log throw ret toString].
  destruct (String_ (argument request "code")) as [code|]; [|reflexivity].
  destruct Hnone as [Hnone|Hnone]; [discriminate Hnone|].
  rewrite Hnone. reflexivity.
Qed.

(** The [verify_derivation] case, when the conversion succeeds. *)
Lemma dispatch_verify_run request env h format :
  name request = "verify_derivation" ->
  String_ (or_else (argument request "format") (JStr "text")) = Some format ->
  let steps := argument request "steps" in
  let inner := verifyDerivation (elements steps) format env
                 (h ++ [EvLog "Tool" "Executing verify_derivation tool"])%list in
  dispatch request env h =
    if negb (truthy steps) || negb (isArray steps) || (length (elements steps) <? 2)%nat then
      (Throw (McpError InvalidParams "At least two derivation steps are required"),
       [EvLog "Tool" "Executing verify_derivation tool"])
    else
      match fst inner with
      | Normal result =>
          (Normal (success result),
           EvLog "Tool" "Executing verify_derivation tool" :: snd inner)
      | Throw error =>
          (Normal (failure ("Error verifying derivation: " ++ message error)),
           EvLog "Tool" "Executing verify_derivation tool"
             :: (snd inner ++ [EvLog "Error" "Tool execution failed"])%list)
      end.
Proof.
  intros Hname Hformat steps inner. unfold dispatch. rewrite Hname.
  cbn [String.eqb Ascii.eqb Bool.eqb].
  cbv [try_catch bind log throw ret toString]. rewrite Hformat. fold steps.
  cbn [app]. rewrite !app_nil_r.
  destruct (negb (truthy steps) || negb (isArray steps) || _); [reflexivity|].
  fold inner. destruct inner as [[result|error] t]; cbn [fst snd app];
    rewrite ?app_nil_r; reflexivity.
Qed.

(** The [verify_derivation] case, when the conversion throws. *)
Lemma dispatch_verify_type_error request env h :
  name request = "verify_derivation" ->
  String_ (or_else (argument request "format") (JStr "text")) = None ->
  dispatch request env h =
    (Throw (TypeError "Cannot convert object to primitive value"),
     [EvLog "Tool" "Executing verify_derivation tool"]).
Proof.
  intros Hname Hnone. unfold dispatch. rewrite Hname.
  cbn [String.eqb Ascii.eqb Bool.eqb].
  cbv [try_catch bind log throw ret toString]. rewrite Hnone. reflexivity.
Qed.

(** Any other tool name. *)
Lemma dispatch_unknown_run request env h :
  name request <> "execute_mathematica" ->
  name request <> "verify_derivation" ->
  dispatch request env h =
    (Throw (McpError MethodNotFound ("Unknown tool: " ++ name request)),
     [EvLog "Error" ("Unknown tool: " ++ name request)]).
Proof.
  intros H1 H2. unfold dispatch.
  apply String.eqb_neq in H1, H2. rewrite H1, H2. reflexivity.
Qed.

Lemma attempt_no_unlink code cmd path r body :
  attempt code cmd path r body -> unlinked body = [].
Proof.
  intros [m|m|out err]; try reflexivity.
  destruct (err =? "")%string; reflexivity.
Qed.

Lemma attempt_written code cmd path r body :
  attempt code cmd path r body -> written body = [(path, code)].
Proof.
  intros [m|m|out err]; try reflexivity.
  destruct (err =? "")%string; reflexivity.
Qed.

Lemma cleanup_unlinked path tail : cleanup path tail -> unlinked tail = [path].
Proof. intros [|m]; reflexivity. Qed.

Lemma cleanup_written path tail : cleanup path tail -> written tail = [].
Proof. intros [|m]; reflexivity. Qed.

(** The completion of the adapter does not look at how the deletion went. *)
Lemma executeMathematicaCode_ignores_unlink code format env f h :
  fst (executeMathematicaCode code format (with_unlink env f) h) =
  fst (executeMathematicaCode code format env h).
Proof.
  cbv [executeMathematicaCode try_finally try_catch bind writeFile execAsync unlink
       log ret throw].
  change (tempFilePath (with_unlink env f) h) with (tempFilePath env h).
  cbn [with_unlink writeFile_outcome exec_outcome unlink_outcome].
  set (path := tempFilePath env h).
  destruct (writeFile_outcome env _ path code) as [m|]; cbn [app fst snd].
  - destruct (f _ path), (unlink_outcome env _ path); reflexivity.
  - destruct (exec_outcome env _ _) as [out err|m]; cbn [app fst snd].
    + destruct (err =? "")%string; cbn [app fst snd];
        destruct (f _ path), (unlink_outcome env _ path); reflexivity.
    + destruct (f _ path), (unlink_outcome env _ path); reflexivity.
Qed.

Lemma executeMathematicaCode_files code format env h :
  written (snd (executeMathematicaCode code format env h)) = [(tempFilePath env h, code)] /\
  unlinked (snd (executeMathematicaCode code format env h)) = [tempFilePath env h].
Proof.
  destruct (executeMathematicaCode_run code format env h) as (body & tail & Ht & Ha & Hc).
  rewrite Ht, written_app, unlinked_app.
  rewrite (attempt_written _ _ _ _ _ Ha), (cleanup_written _ _ Hc).
  rewrite (attempt_no_unlink _ _ _ _ _ Ha), (cleanup_unlinked _ _ Hc).
  split; reflexivity.
Qed.

(** How many engine processes one call of the adapter starts: one, with the
    flag of the format and the path of the temporary file, when the file
    was written, and none when the write failed. *)
Lemma executeMathematicaCode_spawned code format env h :
  spawned (snd (executeMathematicaCode code format env h)) =
    match writeFile_outcome env (h ++ [EvLog "API" "Executing Mathematica code"])%list
            (tempFilePath env h) code with
    | None => [command (formatOption format) (tempFilePath env h)]
    | Some _ => []
    end.
Proof.
  cbv [executeMathematicaCode try_finally try_catch bind writeFile execAsync unlink
       log ret throw].
  set (path := tempFilePath env h).
  destruct (writeFile_outcome env _ path code) as [m|]; cbn [app fst snd].
  - destruct (unlink_outcome env _ path); reflexivity.
  - destruct (exec_outcome env _ _) as [out err|m]; cbn [app fst snd].
    + destruct (err =? "")%string; cbn [app fst snd];
        destruct (unlink_outcome env _ path); reflexivity.
    + destruct (unlink_outcome env _ path); reflexivity.
Qed.

Lemma attempt_throw_failed code cmd path e body :
  attempt code cmd path (Throw e) body -> exists m, Exists (failed m) body.
Proof.
  intros A. inversion A; subst; exists m.
  - apply Exists_cons_tl, Exists_cons_hd. reflexivity.
  - do 2 apply Exists_cons_tl. apply Exists_cons_hd. reflexivity.
Qed.

(** The adapter throws only when the write or the engine run failed. *)
Lemma executeMathematicaCode_throw_failed code format env h e :
  fst (executeMathematicaCode code format env h) = Throw e ->
  exists m, Exists (failed m) (snd (executeMathematicaCode code format env h)).
Proof.
  intros He.
  destruct (executeMathematicaCode_run code format env h) as (body & tail & Ht & Ha & _).
  rewrite He in Ha. destruct (attempt_throw_failed _ _ _ _ _ Ha) as [m Hm].
  exists m. rewrite Ht. apply Exists_app. left. exact Hm.
Qed.

Lemma attempt_failed code cmd path r body m :
  attempt code cmd path r body -> Exists (failed m) body ->
  r = Throw (McpError InternalError ("Failed to execute Mathematica code: " ++ m)).
Proof.
  intros A H. inversion A; subst; clear A.
  - repeat (apply Exists_cons in H; destruct H as [H|H]; cbn in H; try contradiction).
    + subst. reflexivity.
    + inversion H.
  - repeat (apply Exists_cons in H; destruct H as [H|H]; cbn in H; try contradiction).
    + subst. reflexivity.
    + inversion H.
  - exfalso. destruct (err =? "")%string; cbn in H;
      repeat (apply Exists_cons in H; destruct H as [H|H]; cbn in H; try contradiction);
      inversion H.
Qed.

Lemma cleanup_not_failed path tail m : cleanup path tail -> ~ Exists (failed m) tail.
Proof.
  intros [|m'] H;
    repeat (apply Exists_cons in H; destruct H as [H|H]; cbn in H; try contradiction);
    inversion H.
Qed.

(** A failed write or engine run makes the adapter throw an [InternalError]
    that carries the message of the failure. *)
Lemma executeMathematicaCode_failed code format env h m :
  Exists (failed m) (snd (executeMathematicaCode code format env h)) ->
  fst (executeMathematicaCode code format env h) =
    Throw (McpError InternalError ("Failed to execute Mathematica code: " ++ m)).
Proof.
  intros H.
  destruct (executeMathematicaCode_run code format env h) as (body & tail & Ht & Ha & Hc).
  rewrite Ht in H. apply Exists_app in H. destruct H as [H|H].
  - eapply attempt_failed; eauto.
  - exfalso. eapply cleanup_not_failed; eauto.
Qed.

(** The trace of the verifier around the one run of the adapter. *)
Lemma verifyDerivation_trace steps format env h :
  (2 <= length steps)%nat ->
  let inner := executeMathematicaCode (verificationCode steps) format env
                 (h ++ [EvLog "API" "Verifying mathematical derivation"])%list in
  exists closing,
    snd (verifyDerivation steps format env h) =
      (EvLog "API" "Verifying mathematical derivation" :: snd inner ++ closing)%list /\
    (closing = [] \/ closing = [EvLog "Error" "Failed to verify derivation"]).
Proof.
  intros Hlen inner.
  rewrite (verifyDerivation_run steps format env h Hlen).
  fold inner. destruct (fst inner) as [result|error]; cbn [snd].
  - exists []. rewrite app_nil_r. auto.
  - eexists. split; [reflexivity|auto].
Qed.

Lemma verifyDerivation_spawned steps format env h :
  (2 <= length steps)%nat ->
  spawned (snd (verifyDerivation steps format env h)) =
  spawned (snd (executeMathematicaCode (verificationCode steps) format env
                  (h ++ [EvLog "API" "Verifying mathematical derivation"])%list)).
Proof.
  intros Hlen. destruct (verifyDerivation_trace steps format env h Hlen) as (c & -> & Hc).
  cbn [spawned]. rewrite spawned_app.
  destruct Hc as [-> | ->]; cbn [spawned]; apply app_nil_r.
Qed.

Lemma verifyDerivation_written steps format env h :
  (2 <= length steps)%nat ->
  written (snd (verifyDerivation steps format env h)) =
    [(tempFilePath env (h ++ [EvLog "API" "Verifying mathematical derivation"])%list,
      verificationCode steps)].
Proof.
  intros Hlen. destruct (verifyDerivation_trace steps format env h Hlen) as (c & -> & Hc).
  cbn [written]. rewrite written_app.
  rewrite (proj1 (executeMathematicaCode_files _ _ _ _)).
  destruct Hc as [-> | ->]; reflexivity.
Qed.

(** With fewer than two steps the verifier throws at once. *)
Lemma verifyDerivation_short steps format env h :
  (length steps < 2)%nat ->
  verifyDerivation steps format env h =
    (Throw (McpError InvalidParams "At least two steps are required for a derivation"), []).
Proof.
  intros Hlen. unfold verifyDerivation.
  apply Nat.ltb_lt in Hlen. rewrite Hlen. reflexivity.
Qed.

(** A failure inside the verifier is the adapter's, wrapped once more. *)
Lemma verifyDerivation_failed steps format env h m :
  Exists (failed m) (snd (verifyDerivation steps format env h)) ->
  fst (verifyDerivation steps format env h) =
    Throw (McpError InternalError
             ("Failed to verify derivation: " ++
              message (McpError InternalError
                         ("Failed to execute Mathematica code: " ++ m)))).
Proof.
  intros H.
  destruct (Nat.lt_ge_cases (length steps) 2) as [Hlt|Hge].
  - rewrite (verifyDerivation_short _ format env h Hlt) in H. inversion H.
  - rewrite (verifyDerivation_run steps format env h Hge) in *.
    set (inner := executeMathematicaCode _ format env _) in *.
    assert (Hin : Exists (failed m) (snd inner)).
    { destruct (fst inner); cbn [snd] in H;
        apply Exists_cons in H; destruct H as [H|H]; try contradiction; auto.
      apply Exists_app in H. destruct H as [H|H]; auto.
      apply Exists_cons in H. destruct H as [H|H]; [contradiction|inversion H]. }
    pose proof (executeMathematicaCode_failed _ _ _ _ _ Hin) as Hf.
    fold inner in Hf. rewrite Hf. reflexivity.
Qed.

(** Every dispatch goes one of these ways. *)
Lemma dispatch_dispatched request env h :
  dispatched request env h (fst (dispatch request env h)) (snd (dispatch request env h)).
Proof.
  destruct (String.eqb_spec (name request) "execute_mathematica") as [Hn|Hn].
  - destruct (String_ (argument request "code")) as [code|] eqn:Hcode.
    + destruct (format_of request) as [format|] eqn:Hformat.
      * rewrite (dispatch_execute_run request env h code format Hn Hcode Hformat).
        cbv zeta. destruct (String.eqb_spec code "") as [->|Hne].
        -- cbn [fst snd]. eapply execute_rejected; eauto.
        -- pose proof (execute_run request env h code format Hn Hcode Hne Hformat) as D.
           cbv zeta in D.
           destruct (fst (executeMathematicaCode code format env _)); cbn [fst snd];
             cbn [reply_of closing_of] in D; rewrite ?app_nil_r in D; exact D.
      * rewrite (dispatch_execute_type_error request env h Hn (or_intror Hformat)).
        apply execute_unconvertible; auto.
    + rewrite (dispatch_execute_type_error request env h Hn (or_introl Hcode)).
      apply execute_unconvertible; auto.
  - destruct (String.eqb_spec (name request) "verify_derivation") as [Hv|Hv].
    + destruct (format_of request) as [format|] eqn:Hformat.
      * rewrite (dispatch_verify_run request env h format Hv Hformat). cbv zeta.
        fold (steps_rejected request).
        destruct (steps_rejected request) eqn:Hbad.
        -- cbn [fst snd]. eapply verify_rejected; eauto.
        -- pose proof (verify_run request env h format Hv Hformat Hbad) as D.
           cbv zeta in D.
           destruct (fst (verifyDerivation _ format env _)); cbn [fst snd];
             cbn [reply_of closing_of] in D; rewrite ?app_nil_r in D; exact D.
      * rewrite (dispatch_verify_type_error request env h Hv Hformat).
        apply verify_unconvertible; auto.
    + rewrite (dispatch_unknown_run request env h Hn Hv). apply unknown_name; auto.
Qed.

(** A call: the probe, then the fixed reply or one of the ways above. *)
Lemma handler_handled request env h :
  exists b t0,
    probe b t0 /\
    ((b = false /\ handler request env h = (Normal unavailable, t0)) \/
     (b = true /\ exists r td,
         dispatched request env (h ++ t0)%list r td /\
         handler request env h = (r, (t0 ++ td)%list))).
Proof.
  destruct (handler_run request env h) as (b & t0 & _ & Hp & Hrun).
  exists b, t0. split; [exact Hp|].
  destruct b; [right|left]; (split; [reflexivity|]); [|exact Hrun].
  eexists _, _. split; [apply dispatch_dispatched|exact Hrun].
Qed.

End RunFacts.

(** ** Properties of the execution adapter *)

Module AdapterProperties.
Import Js Host Server Trace Runs Worlds RunFacts.

(** C3.  Every call of [executeMathematicaCode] consists of one of the three
    attempts (the write failed, the engine failed, or the run succeeded)
    followed by the cleanup: exactly one deletion is attempted, of the file
    the call wrote, and a failed deletion only adds a warning to the log.
    The completion of the call, result or error, is the same whatever the
    deletion does. *)
Theorem executeMathematicaCode_always_cleans_up code format env h :
  let run := executeMathematicaCode code format env h in
  let path := tempFilePath env h in
  (exists body tail,
      snd run = (body ++ tail)%list /\
      attempt code (command (formatOption format) path) path (fst run) body /\
      cleanup path tail) /\
  written (snd run) = [(path, code)] /\
  unlinked (snd run) = [path] /\
  (forall f, fst (executeMathematicaCode code format (with_unlink env f) h) = fst run).
Proof.
  intros run path.
  destruct (executeMathematicaCode_run code format env h) as (body & tail & Ht & Ha & Hc).
  fold run path in Ht, Ha, Hc.
  split; [exists body, tail; auto|].
  destruct (executeMathematicaCode_files code format env h) as [Hw Hu].
  repeat split; [exact Hw|exact Hu|].
  intros f. apply executeMathematicaCode_ignores_unlink.
Qed.

(** C6, as stated, fails: when the temporary file cannot be written the
    adapter starts no engine process at all. *)
Lemma adapter_spawns_nothing_when_write_fails :
  ~ (length (spawned (snd (executeMathematicaCode "2 + 2" "text" disk_full []))) = 1%nat).
Proof. vm_compute. discriminate. Qed.

(** C6, amended.  With at least two steps the verifier runs the adapter
    exactly once, on the generated program: its trace is its own log line,
    the trace of that one run, and at most a closing error line; exactly one
    file is written, holding [verificationCode steps].  Each run of the
    adapter starts at most one engine process: exactly one when the
    temporary file was written, none when writing it failed. *)
Theorem verifyDerivation_runs_adapter_once steps format env h :
  (2 <= length steps)%nat ->
  let h' := (h ++ [EvLog "API" "Verifying mathematical derivation"])%list in
  let inner := executeMathematicaCode (verificationCode steps) format env h' in
  let t := snd (verifyDerivation steps format env h) in
  (exists closing,
      t = (EvLog "API" "Verifying mathematical derivation" :: snd inner ++ closing)%list /\
      (closing = [] \/ closing = [EvLog "Error" "Failed to verify derivation"])) /\
  written t = [(tempFilePath env h', verificationCode steps)] /\
  spawned t = spawned (snd inner) /\
  (forall code0 format0 env0 h0,
      spawned (snd (executeMathematicaCode code0 format0 env0 h0)) =
        match writeFile_outcome env0 (h0 ++ [EvLog "API" "Executing Mathematica code"])%list
                (tempFilePath env0 h0) code0 with
        | None => [command (formatOption format0) (tempFilePath env0 h0)]
        | Some _ => []
        end).
Proof.
  intros Hlen h' inner t. subst t inner h'.
  split; [apply verifyDerivation_trace; exact Hlen|].
  split; [apply verifyDerivation_written; exact Hlen|].
  split; [apply verifyDerivation_spawned; exact Hlen|].
  intros. apply executeMathematicaCode_spawned.
Qed.

(** At least two steps, in a world where all goes well. *)
Lemma verifyDerivation_runs_adapter_once_witness :
  spawned (snd (verifyDerivation [JStr "x"; JStr "x"] "text" reachable [])) =
  spawned (snd (executeMathematicaCode (verificationCode [JStr "x"; JStr "x"]) "text"
                  reachable [EvLog "API" "Verifying mathematical derivation"])).
Proof.
  apply (verifyDerivation_runs_adapter_once [JStr "x"; JStr "x"] "text" reachable []).
  simpl. lia.
Defined.

(** C8.  The flag is chosen on the lower-cased format: [latex] and
    [mathematica] get their own flag and every other string gets the flag
    of [text].  The choice never fails: the flag is part of the one command
    the adapter spawns, and the adapter throws only when writing the file or
    running the engine failed. *)
Theorem formatOption_total format :
  (toLowerCase format = "latex" -> formatOption format = "-format latex") /\
  (toLowerCase format = "mathematica" -> formatOption format = "-format mathematica") /\
  (toLowerCase format <> "latex" -> toLowerCase format <> "mathematica" ->
   formatOption format = "-format text") /\
  (forall code env h,
      incl (spawned (snd (executeMathematicaCode code format env h)))
           [command (formatOption format) (tempFilePath env h)] /\
      (forall e, fst (executeMathematicaCode code format env h) = Throw e ->
                 exists m, Exists (failed m) (snd (executeMathematicaCode code format env h)))).
Proof.
  unfold formatOption. repeat split.
  - intros ->. reflexivity.
  - intros ->. reflexivity.
  - intros H1 H2. apply String.eqb_neq in H1, H2. rewrite H1, H2. reflexivity.
  - rewrite executeMathematicaCode_spawned.
    destruct (writeFile_outcome env _ _ code); [apply incl_nil_l|apply incl_refl].
  - apply executeMathematicaCode_throw_failed.
Qed.

(** The three branches at [LaTeX], [Mathematica] and [pdf]. *)
Lemma formatOption_total_witness :
  formatOption "LaTeX" = "-format latex" /\
  formatOption "Mathematica" = "-format mathematica" /\
  formatOption "pdf" = "-format text".
Proof.
  split; [|split].
  - apply (formatOption_total "LaTeX"). reflexivity.
  - apply (formatOption_total "Mathematica"). reflexivity.
  - apply (formatOption_total "pdf"); simpl; discriminate.
Defined.

(** C9.  Two formats with the same lower-cased form select the same flag,
    and the adapter then behaves the same on them. *)
Theorem formatOption_case_insensitive format1 format2 :
  toLowerCase format1 = toLowerCase format2 ->
  formatOption format1 = formatOption format2 /\
  (forall code, executeMathematicaCode code format1 = executeMathematicaCode code format2).
Proof.
  intros H.
  assert (Hf : formatOption format1 = formatOption format2).
  { unfold formatOption. rewrite H. reflexivity. }
  split; [exact Hf|].
  intros code. unfold executeMathematicaCode. rewrite Hf. reflexivity.
Qed.

(** [LaTeX] and [latex]. *)
Lemma formatOption_case_insensitive_witness :
  formatOption "LaTeX" = formatOption "latex".
Proof.
  apply (formatOption_case_insensitive "LaTeX" "latex"). reflexivity.
Defined.

End AdapterProperties.

(** ** Properties of the tool-call handler *)

Module HandlerProperties.
Import Js Host Server Trace Runs Worlds MoreWorlds RunFacts.

Lemma probe_observed b t0 :
  probe b t0 ->
  spawned t0 = [probe_command] /\ written t0 = [] /\ unlinked t0 = [].
Proof. intros [out err|m]; repeat split. Qed.

Lemma probe_reached_exited t0 m :
  probe true t0 -> ~ In (EvExec probe_command (ExecFailed m)) t0.
Proof.
  intros P. inversion P; subst. cbn. intros [H|[H|[H|[]]]]; discriminate H.
Qed.

Lemma probe_unreachable_failed t0 out err :
  probe false t0 -> ~ In (EvExec probe_command (Exited out err)) t0.
Proof.
  intros P. inversion P; subst. cbn. intros [H|[H|[H|[]]]]; discriminate H.
Qed.

Lemma probe_reached_not_failed t0 m : probe true t0 -> ~ Exists (failed m) t0.
Proof.
  intros P. inversion P; subst. intros H.
  repeat (apply Exists_cons in H; destruct H as [H|H]; cbn in H; try contradiction).
  inversion H.
Qed.

(** The command that runs a program file is never the probe's. *)
Lemma command_not_probe format path :
  command (formatOption format) path <> probe_command.
Proof.
  unfold command, formatOption, probe_command.
  destruct (_ =? "latex")%string; [|destruct (_ =? "mathematica")%string];
    cbn; intros H; discriminate H.
Qed.

Lemma closing_of_observed c :
  spawned (closing_of c) = [] /\ written (closing_of c) = [] /\ unlinked (closing_of c) = [].
Proof. destruct c; repeat split. Qed.

Lemma verifyDerivation_unlinked steps format env h :
  (2 <= length steps)%nat ->
  unlinked (snd (verifyDerivation steps format env h)) =
    [tempFilePath env (h ++ [EvLog "API" "Verifying mathematical derivation"])%list].
Proof.
  intros Hlen. destruct (verifyDerivation_trace steps format env h Hlen) as (c & -> & Hc).
  cbn [unlinked]. rewrite unlinked_app.
  rewrite (proj2 (executeMathematicaCode_files _ _ _ _)).
  destruct Hc as [-> | ->]; reflexivity.
Qed.

Lemma steps_accepted_length request :
  steps_rejected request = false -> (2 <= length (elements (argument request "steps")))%nat.
Proof.
  unfold steps_rejected. intros H. apply orb_false_elim in H.
  destruct H as [_ H]. apply Nat.ltb_ge in H. exact H.
Qed.

(** The processes and files of a dispatch: nothing at all, or one run of
    the adapter, which writes and deletes one file and, unless the write
    failed, spawns the engine on that file with the flag of the format. *)
Lemma dispatched_effects request env h r td :
  dispatched request env h r td ->
  (spawned td = [] /\ written td = [] /\ unlinked td = []) \/
  (exists format path data,
      format_of request = Some format /\
      written td = [(path, data)] /\ unlinked td = [path] /\
      (spawned td = [] \/ spawned td = [command (formatOption format) path])).
Proof.
  intros D. inversion D as [ | | code format Hn Hc Hne Hf | | | format Hn Hf Hb | ]; subst;
    try (left; repeat split; reflexivity); right; subst inner.
  - (* the adapter ran *)
    set (inner := executeMathematicaCode _ _ env _) in *.
    destruct (closing_of_observed (fst inner)) as (Cs & Cw & Cu).
    destruct (executeMathematicaCode_files code format env
                (h ++ [EvLog "Tool" "Executing execute_mathematica tool"])%list) as [Hw Hu].
    pose proof (executeMathematicaCode_spawned code format env
                  (h ++ [EvLog "Tool" "Executing execute_mathematica tool"])%list) as Hs.
    fold inner in Hw, Hu, Hs.
    exists format, (tempFilePath env (h ++ [EvLog "Tool" "Executing execute_mathematica tool"])%list), code.
    cbn [spawned written unlinked].
    rewrite spawned_app, written_app, unlinked_app, Cs, Cw, Cu, Hw, Hu, Hs, !app_nil_r.
    repeat split; auto.
    destruct (writeFile_outcome env _ _ code); auto.
  - (* the verifier ran *)
    pose proof (steps_accepted_length request Hb) as Hlen.
    set (h' := (h ++ [EvLog "Tool" "Executing verify_derivation tool"])%list) in *.
    set (inner := verifyDerivation _ _ env _) in *.
    destruct (closing_of_observed (fst inner)) as (Cs & Cw & Cu).
    pose proof (verifyDerivation_written _ format env h' Hlen) as Hw.
    pose proof (verifyDerivation_unlinked _ format env h' Hlen) as Hu.
    pose proof (verifyDerivation_spawned _ format env h' Hlen) as Hs.
    rewrite executeMathematicaCode_spawned in Hs.
    fold inner in Hw, Hu, Hs.
    eexists format, _, _.
    cbn [spawned written unlinked].
    rewrite spawned_app, written_app, unlinked_app, Cs, Cw, Cu, Hw, Hu, Hs, !app_nil_r.
    repeat split; auto.
    destruct (writeFile_outcome env _ _ _); auto.
Qed.

(** What a call does when the check of [steps] fails. *)
Lemma handler_verify_rejected request env h :
  name request = "verify_derivation" ->
  steps_rejected request = true ->
  let run := handler request env h in
  spawned (snd run) = ["wolframscript -help"] /\
  written (snd run) = [] /\
  ((exists out err, In (EvExec "wolframscript -help" (Exited out err)) (snd run)) ->
   (exists format,
       String_ (or_else (argument request "format") (JStr "text")) = Some format) ->
   fst run = Throw (McpError InvalidParams "At least two derivation steps are required")) /\
  ((exists m, In (EvExec "wolframscript -help" (ExecFailed m)) (snd run)) ->
   fst run =
     Normal {| content :=
                 [{| type := "text";
                     text := "Error: Mathematica (wolframscript) is not installed or not accessible. Please make sure Mathematica is installed and wolframscript is in your PATH." |}];
               isError := Some true |}).
Proof.
  intros Hname Hbad run. subst run.
  destruct (handler_handled request env h)
    as (b & t0 & Hp & [(-> & ->)|(-> & r & td & D & ->)]); cbn [fst snd].
  - destruct (probe_observed _ _ Hp) as (Hs & Hw & _).
    repeat split; auto.
    intros (out & err & Hin). exfalso. exact (probe_unreachable_failed _ _ _ Hp Hin).
  - destruct (probe_observed _ _ Hp) as (Hs & Hw & _).
    rewrite spawned_app, written_app, Hs, Hw.
    inversion D as [ | | | Hn Hf | format Hn Hf Hb | format Hn Hf Hb | ]; subst;
      try congruence.
    + repeat split.
      * intros _ (format & Hformat). unfold format_of in Hf. congruence.
      * intros (m & Hin). exfalso. apply in_app_or in Hin. destruct Hin as [Hin|Hin].
        -- exact (probe_reached_exited _ _ Hp Hin).
        -- destruct Hin as [Hin|[]]. discriminate Hin.
    + repeat split.
      intros (m & Hin). exfalso. apply in_app_or in Hin. destruct Hin as [Hin|Hin].
      * exact (probe_reached_exited _ _ Hp Hin).
      * destruct Hin as [Hin|[]]. discriminate Hin.
Qed.

(** C1, as stated, fails: the call with a single step is rejected, but the
    handler has by then spawned the reachability probe. *)
Lemma one_step_call_spawns_probe :
  ~ ((exists msg, fst (handler one_step reachable []) = Throw (McpError InvalidParams msg)) /\
     spawned (snd (handler one_step reachable [])) = []).
Proof. intros [_ H]. vm_compute in H. discriminate H. Qed.

(** C1, amended.  A [verify_derivation] call whose [steps] array has fewer
    than two elements spawns the reachability probe and nothing else, and
    writes no file.  When the probe succeeds and the [format] argument can
    be converted to a string, the call fails with [InvalidParams]; when the
    probe fails the handler returns the error-flagged notice that the
    engine is not accessible.  The verifier itself, given such an array,
    throws [InvalidParams] without any effect. *)
Theorem short_steps_rejected request elems env h :
  name request = "verify_derivation" ->
  argument request "steps" = JArr elems ->
  (length elems < 2)%nat ->
  let run := handler request env h in
  spawned (snd run) = ["wolframscript -help"] /\
  written (snd run) = [] /\
  ((exists out err, In (EvExec "wolframscript -help" (Exited out err)) (snd run)) ->
   (exists format,
       String_ (or_else (argument request "format") (JStr "text")) = Some format) ->
   fst run = Throw (McpError InvalidParams "At least two derivation steps are required")) /\
  ((exists m, In (EvExec "wolframscript -help" (ExecFailed m)) (snd run)) ->
   fst run =
     Normal {| content :=
                 [{| type := "text";
                     text := "Error: Mathematica (wolframscript) is not installed or not accessible. Please make sure Mathematica is installed and wolframscript is in your PATH." |}];
               isError := Some true |}) /\
  (forall format env' h',
      verifyDerivation elems format env' h' =
        (Throw (McpError InvalidParams "At least two steps are required for a derivation"),
         [])).
Proof.
  intros Hname Hsteps Hlen run.
  assert (Hbad : steps_rejected request = true).
  { unfold steps_rejected. rewrite Hsteps. cbn [truthy isArray elements negb orb].
    apply Nat.ltb_lt. exact Hlen. }
  destruct (handler_verify_rejected request env h Hname Hbad) as (H1 & H2 & H3 & H4).
  repeat split; auto.
  intros. apply verifyDerivation_short. exact Hlen.
Qed.

(** A single step, with the engine installed. *)
Lemma short_steps_rejected_witness :
  fst (handler one_step reachable []) =
    Throw (McpError InvalidParams "At least two derivation steps are required").
Proof.
  apply (short_steps_rejected one_step [JStr "x^2"] reachable []).
  - reflexivity.
  - reflexivity.
  - simpl. lia.
  - exists ("4" ++ nl), "". vm_compute. auto.
  - exists "text". reflexivity.
Defined.

(** C10, as stated, fails: with the engine unreachable the call whose
    [steps] is a string gets the reply for an unreachable engine, not an
    [InvalidParams] error. *)
Lemma steps_as_string_unreachable :
  ~ (exists msg, fst (handler steps_as_string unreachable []) =
                   Throw (McpError InvalidParams msg)).
Proof. intros [msg H]. vm_compute in H. discriminate H. Qed.

(** C10, amended.  A [verify_derivation] call whose [steps] is present but
    not an array spawns the reachability probe and nothing else, and writes
    no file.  When the probe succeeds and the [format] argument can be
    converted to a string, the handler throws [InvalidParams]; when the
    probe fails it returns the error-flagged notice that the engine is not
    accessible. *)
Theorem non_array_steps_rejected request env h :
  name request = "verify_derivation" ->
  argument request "steps" <> JUndefined ->
  isArray (argument request "steps") = false ->
  let run := handler request env h in
  spawned (snd run) = ["wolframscript -help"] /\
  written (snd run) = [] /\
  ((exists out err, In (EvExec "wolframscript -help" (Exited out err)) (snd run)) ->
   (exists format,
       String_ (or_else (argument request "format") (JStr "text")) = Some format) ->
   fst run = Throw (McpError InvalidParams "At least two derivation steps are required")) /\
  ((exists m, In (EvExec "wolframscript -help" (ExecFailed m)) (snd run)) ->
   fst run =
     Normal {| content :=
                 [{| type := "text";
                     text := "Error: Mathematica (wolframscript) is not installed or not accessible. Please make sure Mathematica is installed and wolframscript is in your PATH." |}];
               isError := Some true |}).
Proof.
  intros Hname _ Harr.
  apply handler_verify_rejected; [exact Hname|].
  unfold steps_rejected. rewrite Harr. cbn [negb]. rewrite orb_true_r. reflexivity.
Qed.

(** [steps] given as a string, with the engine installed. *)
Lemma non_array_steps_rejected_witness :
  fst (handler steps_as_string reachable []) =
    Throw (McpError InvalidParams "At least two derivation steps are required").
Proof.
  apply (non_array_steps_rejected steps_as_string reachable []).
  - reflexivity.
  - vm_compute. discriminate.
  - reflexivity.
  - exists ("4" ++ nl), "". vm_compute. auto.
  - exists "text". reflexivity.
Defined.

Lemma count_occ_absent (l : list string) (x : string) :
  (forall c, In c l -> c <> x) -> count_occ string_dec l x = 0%nat.
Proof.
  intros H. apply count_occ_not_In. intros Hin. exact (H x Hin eq_refl).
Qed.

(** The dispatch never runs the probe's command. *)
Lemma dispatched_spawned request env h r td :
  dispatched request env h r td ->
  forall c, In c (spawned td) -> c <> probe_command.
Proof.
  intros D c Hin.
  destruct (dispatched_effects request env h r td D)
    as [(Hs & _)|(format & path & data & _ & _ & _ & [Hs|Hs])];
    rewrite Hs in Hin; try destruct Hin as [ <- |[]]; try destruct Hin.
  apply command_not_probe.
Qed.

(** Each call runs the probe exactly once. *)
Lemma handler_probes_once request env h :
  count_occ string_dec (spawned (snd (handler request env h))) probe_command = 1%nat.
Proof.
  destruct (handler_handled request env h)
    as (b & t0 & Hp & [(-> & ->)|(-> & r & td & D & ->)]); cbn [fst snd];
    destruct (probe_observed _ _ Hp) as (Hs & _ & _).
  - rewrite Hs. reflexivity.
  - rewrite spawned_app, count_occ_app, Hs.
    rewrite (count_occ_absent _ _ (dispatched_spawned request env _ r td D)). reflexivity.
Qed.

(** C7.  Whatever the tool name and whatever happened before the call, the
    call begins by logging and running the probe, whose outcome is asked of
    the world at that moment, and it runs the probe exactly once.  If the
    probe fails, the handler returns a reply whose [isError] is set and
    whose one text block says that Mathematica is not installed or not
    accessible, having done nothing but log the failure: no dispatch and no
    work take place. *)
Theorem probe_runs_on_every_call request env h :
  let asked := exec_outcome env
                 (h ++ [EvLog "Setup" "Checking Mathematica installation..."])%list
                 "wolframscript -help" in
  (exists rest,
      snd (handler request env h) =
        EvLog "Setup" "Checking Mathematica installation..."
          :: EvExec "wolframscript -help" asked :: rest) /\
  count_occ string_dec (spawned (snd (handler request env h))) "wolframscript -help" = 1%nat /\
  (forall m, asked = ExecFailed m ->
             handler request env h =
               (Normal {| content :=
                           [{| type := "text";
                               text := "Error: Mathematica (wolframscript) is not installed or not accessible. Please make sure Mathematica is installed and wolframscript is in your PATH." |}];
                          isError := Some true |},
                [EvLog "Setup" "Checking Mathematica installation...";
                 EvExec "wolframscript -help" (ExecFailed m);
                 EvLog "Error" "Mathematica not found or not accessible"])).
Proof.
  intros asked. subst asked.
  split; [|split; [apply handler_probes_once|]].
  - destruct (handler_run request env h) as (b & t0 & Hc & Hp & ->).
    destruct (checkMathematicaInstallation_run env h) as (b' & t0' & Hc' & _ & Hasked).
    rewrite Hc in Hc'. injection Hc' as <- <-. unfold probe_command in *.
    inversion Hp; subst; cbn in Hasked; injection Hasked as Hasked; cbn [fst snd app];
      eexists; rewrite <- Hasked; reflexivity.
  - intros m Hm.
    destruct (handler_run request env h) as (b & t0 & Hc & Hp & ->).
    destruct (checkMathematicaInstallation_run env h) as (b' & t0' & Hc' & _ & Hasked).
    rewrite Hc in Hc'. injection Hc' as <- <-. unfold probe_command in *.
    inversion Hp; subst; cbn in Hasked; injection Hasked as Hasked; cbn [fst snd app];
      rewrite Hm in Hasked.
    + discriminate Hasked.
    + injection Hasked as ->. reflexivity.
Qed.

(** An unknown tool name with the engine unreachable; then a second call in
    a world whose engine answered the probe of the first call only: the
    earlier success is not remembered. *)
Lemma probe_runs_on_every_call_witness :
  fst (handler unknown_tool unreachable []) =
    Normal {| content :=
                [{| type := "text";
                    text := "Error: Mathematica (wolframscript) is not installed or not accessible. Please make sure Mathematica is installed and wolframscript is in your PATH." |}];
              isError := Some true |} /\
  fst (handler two_plus_two flaky (snd (handler two_plus_two flaky []))) =
    Normal {| content :=
                [{| type := "text";
                    text := "Error: Mathematica (wolframscript) is not installed or not accessible. Please make sure Mathematica is installed and wolframscript is in your PATH." |}];
              isError := Some true |}.
Proof.
  split.
  - rewrite (proj2 (proj2 (probe_runs_on_every_call unknown_tool unreachable []))
               ("Command failed: " ++ "wolframscript -help") eq_refl).
    reflexivity.
  - rewrite (proj2 (proj2 (probe_runs_on_every_call two_plus_two flaky
                              (snd (handler two_plus_two flaky []))))
               ("Command failed: " ++ "wolframscript -help") eq_refl).
    reflexivity.
Defined.

(** C2.  A call of [execute_mathematica] without a [code] argument is not
    rejected: [String(undefined)] is the text [undefined], which is not
    empty, so once the probe has succeeded (and the [format] argument has
    been converted) that text is written to the temporary file and handed
    to the engine, and no [InvalidParams] error is thrown. *)
Theorem missing_code_is_run request env h format :
  name request = "execute_mathematica" ->
  argument request "code" = JUndefined ->
  String_ (or_else (argument request "format") (JStr "text")) = Some format ->
  (exists out err, In (EvExec probe_command (Exited out err)) (snd (handler request env h))) ->
  (exists path, written (snd (handler request env h)) = [(path, "undefined")]) /\
  (exists result, fst (handler request env h) = Normal result).
Proof.
  intros Hname Hcode Hformat (out & err & Hin).
  destruct (handler_run request env h) as (b & t0 & _ & Hp & Hrun).
  rewrite Hrun in *. clear Hrun.
  destruct b; cbn [fst snd] in *;
    [|exfalso; exact (probe_unreachable_failed _ _ _ Hp Hin)].
  destruct (probe_observed _ _ Hp) as (_ & Hw & _).
  assert (Hc : String_ (argument request "code") = Some "undefined")
    by (rewrite Hcode; reflexivity).
  rewrite (dispatch_execute_run request env _ "undefined" format Hname Hc Hformat).
  cbv zeta. cbn [String.eqb].
  match goal with
  | |- context [executeMathematicaCode ?c ?f ?e ?hh] =>
      pose proof (proj1 (executeMathematicaCode_files c f e hh)) as Hfiles;
      set (inner := executeMathematicaCode c f e hh) in *
  end.
  destruct (fst inner); cbn [fst snd]; (split; [|eexists; reflexivity]);
    eexists; rewrite written_app, Hw; cbn [app written];
    rewrite ?written_app, Hfiles; reflexivity.
Qed.

(** The call without [code], with the engine installed. *)
Lemma missing_code_is_run_witness :
  exists path, written (snd (handler missing_code reachable [])) = [(path, "undefined")].
Proof.
  apply (missing_code_is_run missing_code reachable [] "text").
  - reflexivity.
  - reflexivity.
  - reflexivity.
  - exists ("4" ++ nl), "". vm_compute. auto.
Defined.

Lemma Exists_failed_log m type msg t :
  Exists (failed m) (EvLog type msg :: t) -> Exists (failed m) t.
Proof.
  intros H. apply Exists_cons in H. destruct H as [H|H]; [contradiction|exact H].
Qed.

Lemma Exists_failed_closing m t c :
  Exists (failed m) (t ++ closing_of c)%list -> Exists (failed m) t.
Proof.
  intros H. apply Exists_app in H. destruct H as [H|H]; [exact H|].
  destruct c; cbn in H; [inversion H|].
  apply Exists_failed_log in H. inversion H.
Qed.

(** C4.  When, during an [execute_mathematica] or [verify_derivation] call,
    a child process fails or the temporary file cannot be written, with
    message [m], the handler does not throw: it returns a reply whose
    [isError] is set and whose text is either the notice that the engine is
    unreachable (the probe failed) or the tool's error line ending in [m]. *)
Theorem subprocess_failure_is_reported request env h m :
  name request = "execute_mathematica" \/ name request = "verify_derivation" ->
  Exists (failed m) (snd (handler request env h)) ->
  exists txt,
    fst (handler request env h) =
      Normal {| content := [{| type := "text"; text := txt |}]; isError := Some true |} /\
    (txt = text_of_unavailable \/
     (name request = "execute_mathematica" /\ txt = execute_failure_text m) \/
     (name request = "verify_derivation" /\ txt = verify_failure_text m)).
Proof.
  intros Hname Hfail.
  destruct (handler_handled request env h)
    as (b & t0 & Hp & [(-> & Hrun)|(-> & r & td & D & Hrun)]);
    rewrite Hrun in *; clear Hrun; cbn [fst snd] in *.
  { exists text_of_unavailable. split; [reflexivity|left; reflexivity]. }
  apply Exists_app in Hfail.
  destruct Hfail as [Hfail|Hfail]; [exfalso; exact (probe_reached_not_failed _ _ Hp Hfail)|].
  inversion D as [ | | code format Hn Hc Hne Hf | | | format Hn Hf Hb | ]; subst;
    try (exfalso; apply Exists_failed_log in Hfail; inversion Hfail; fail);
    subst inner.
  - apply Exists_failed_log, Exists_failed_closing in Hfail.
    rewrite (executeMathematicaCode_failed _ _ _ _ _ Hfail). cbn [reply_of].
    exists (execute_failure_text m). split; [reflexivity|right; left; auto].
  - apply Exists_failed_log, Exists_failed_closing in Hfail.
    rewrite (verifyDerivation_failed _ _ _ _ _ Hfail). cbn [reply_of].
    exists (verify_failure_text m). split; [reflexivity|right; right; auto].
Qed.

(** The engine rejects the program of an [execute_mathematica] call. *)
Lemma subprocess_failure_is_reported_witness :
  exists txt,
    fst (handler two_plus_two failing_engine []) =
      Normal {| content := [{| type := "text"; text := txt |}]; isError := Some true |}.
Proof.
  destruct (subprocess_failure_is_reported two_plus_two failing_engine []
              ("Command failed: " ++
               command "-format text" "/tmp/mcp_mathematica_1700000000000_k3x9a.wl"))
    as (txt & H & _).
  - left. reflexivity.
  - vm_compute. do 6 apply Exists_cons_tl. apply Exists_cons_hd. reflexivity.
  - exists txt. exact H.
Defined.

End HandlerProperties.

(** ** Texts *)

Module StringFacts.
Import Js.

Lemma prefix_app (t s : string) : String.prefix t (t ++ s) = true.
Proof.
  induction t as [|c t IH].
  - destruct s; reflexivity.
  - change (String c t ++ s) with (String c (t ++ s)).
    cbn [String.prefix].
    destruct (ascii_dec c c) as [_|Hne]; [exact IH|contradiction].
Qed.

Lemma includes_app (pre t post : string) : includes (pre ++ t ++ post) t = true.
Proof.
  induction pre as [|c pre IH].
  - change ("" ++ t ++ post) with (t ++ post).
    destruct (t ++ post) eqn:Heq; cbn [includes]; rewrite <- Heq, prefix_app; reflexivity.
  - change (String c pre ++ t ++ post) with (String c (pre ++ t ++ post)).
    cbn [includes]. rewrite IH. destruct (String.prefix t _); reflexivity.
Qed.

Lemma append_assoc (a b c : string) : (a ++ b) ++ c = a ++ b ++ c.
Proof.
  induction a as [|x a IH]; [reflexivity|].
  change (String x ((a ++ b) ++ c) = String x (a ++ b ++ c)).
  f_equal. exact IH.
Qed.

Lemma append_nil_r (a : string) : a ++ "" = a.
Proof.
  induction a as [|x a IH]; [reflexivity|].
  change (String x (a ++ "") = String x a). f_equal. exact IH.
Qed.

End StringFacts.

(** ** Further properties of the probe and the execution adapter *)

Module AdapterExtras.
Import Js Host Server Trace Runs Worlds MoreWorlds Observations RunFacts.

(** X1.  The reachability probe never throws.  It completes with [true]
    exactly when [wolframscript -help] exited normally, whatever it printed,
    and with [false] when it failed; it spawns that one command and touches
    no file. *)
Theorem checkMathematicaInstallation_total env h :
  exists b t,
    checkMathematicaInstallation env h = (Normal b, t) /\
    spawned t = [probe_command] /\ written t = [] /\ unlinked t = [] /\
    (b = true <->
     exists out err,
       exec_outcome env (h ++ [EvLog "Setup" "Checking Mathematica installation..."])%list
         probe_command = Exited out err).
Proof.
  destruct (checkMathematicaInstallation_run env h) as (b & t & Hc & Hp & Hasked).
  exists b, t. split; [exact Hc|].
  inversion Hp; subst; cbn in Hasked; injection Hasked as Hasked;
    (repeat split; try reflexivity).
  - intros _. eauto.
  - discriminate.
  - intros (out & err & H). rewrite H in Hasked. discriminate Hasked.
Qed.

(** X2.  When the temporary file is written and the engine exits normally,
    the adapter returns the engine's standard output, trimmed.  Output on
    the error stream does not fail the call: it adds one warning to the log,
    and only then. *)
Theorem executeMathematicaCode_success code format env h out err :
  writeFile_outcome env (h ++ [EvLog "API" "Executing Mathematica code"])%list
    (tempFilePath env h) code = None ->
  exec_outcome env
    (h ++ [EvLog "API" "Executing Mathematica code";
           EvWriteFile (tempFilePath env h) code None])%list
    (command (formatOption format) (tempFilePath env h)) = Exited out err ->
  fst (executeMathematicaCode code format env h) = Normal (trim out) /\
  (In (EvLog "Warning" "Mathematica execution produced stderr output")
      (snd (executeMathematicaCode code format env h)) <-> err <> "").
Proof.
  intros Hw He.
  cbv [executeMathematicaCode try_finally try_catch bind writeFile execAsync unlink
       log ret throw].
  set (path := tempFilePath env h) in *.
  rewrite Hw. cbn [app fst snd].
  rewrite <- app_assoc. cbn [app]. rewrite He. cbn [app fst snd].
  destruct (String.eqb_spec err "") as [->|Hne]; cbn [app fst snd];
    destruct (unlink_outcome env _ path); cbn [app fst snd];
    (split; [reflexivity|]); cbn [In]; split; intros H; try tauto;
    repeat (destruct H as [H|H]; try discriminate H); try contradiction.
Qed.

(** The engine prints [4] between blanks and complains on its error stream. *)
Lemma executeMathematicaCode_success_witness :
  fst (executeMathematicaCode "2 + " "text" noisy []) = Normal "4".
Proof.
  apply (executeMathematicaCode_success "2 + " "text" noisy []
           ("  4 " ++ nl) "Syntax::sntxi: Incomplete expression"); reflexivity.
Defined.

(** X3.  The only error the adapter throws is an [InternalError] whose
    message is [Failed to execute Mathematica code: ] followed by the message
    of the write or of the engine run that failed in that call. *)
Theorem executeMathematicaCode_error code format env h e :
  fst (executeMathematicaCode code format env h) = Throw e ->
  exists m,
    e = McpError InternalError ("Failed to execute Mathematica code: " ++ m) /\
    Exists (failed m) (snd (executeMathematicaCode code format env h)).
Proof.
  intros He.
  destruct (executeMathematicaCode_throw_failed code format env h e He) as [m Hm].
  exists m. split; [|exact Hm].
  pose proof (executeMathematicaCode_failed code format env h m Hm) as Hf.
  rewrite He in Hf. injection Hf as ->. reflexivity.
Qed.

(** The temporary directory cannot be written. *)
Lemma executeMathematicaCode_error_witness :
  exists m,
    McpError InternalError
      "Failed to execute Mathematica code: ENOSPC: no space left on device, write" =
    McpError InternalError ("Failed to execute Mathematica code: " ++ m) /\
    Exists (failed m) (snd (executeMathematicaCode "2 + 2" "text" disk_full [])).
Proof.
  apply (executeMathematicaCode_error "2 + 2" "text" disk_full []). reflexivity.
Defined.

(** Case analysis on a position in a trace of known shape. *)
Ltac positions j H :=
  destruct j as [|[|[|[|[|[|[|j]]]]]]]; cbn in H; try discriminate H.

(** X4.  Within a call of the adapter the engine is started only after the
    temporary file has been written successfully, and the deletion is
    attempted only after every write and every engine run of that call. *)
Theorem executeMathematicaCode_order code format env h :
  let t := snd (executeMathematicaCode code format env h) in
  (forall j c o,
      t !! j = Some (EvExec c o) ->
      exists i, (i < j)%nat /\
                t !! i = Some (EvWriteFile (tempFilePath env h) code None)) /\
  (forall j p o,
      t !! j = Some (EvUnlink p o) ->
      forall i, (exists c o', t !! i = Some (EvExec c o')) \/
                (exists p' d o', t !! i = Some (EvWriteFile p' d o')) ->
                (i < j)%nat).
Proof.
  cbv [executeMathematicaCode try_finally try_catch bind writeFile execAsync unlink
       log ret throw].
  set (path := tempFilePath env h).
  destruct (writeFile_outcome env _ path code) as [mw|]; cbn [app fst snd].
  - destruct (unlink_outcome env _ path) as [mu|]; cbn [app fst snd];
      (split;
       [ intros j c o H; positions j H
       | intros j p o H i Hi; positions j H;
         destruct Hi as [(c & o' & Hi)|(p' & d & o' & Hi)]; positions i Hi; lia ]).
  - destruct (exec_outcome env _ _) as [out err|me]; cbn [app fst snd].
    + destruct (err =? "")%string; cbn [app fst snd];
        destruct (unlink_outcome env _ path) as [mu|]; cbn [app fst snd];
        (split;
         [ intros j c o H; positions j H; exists 1%nat; split; [lia|reflexivity]
         | intros j p o H i Hi; positions j H;
           destruct Hi as [(c & o' & Hi)|(p' & d & o' & Hi)]; positions i Hi; lia ]).
    + destruct (unlink_outcome env _ path) as [mu|]; cbn [app fst snd];
        (split;
         [ intros j c o H; positions j H; exists 1%nat; split; [lia|reflexivity]
         | intros j p o H i Hi; positions j H;
           destruct Hi as [(c & o' & Hi)|(p' & d & o' & Hi)]; positions i Hi; lia ]).
Qed.

(** *** The name of the temporary file *)

Lemma pretty_N_char_plain x : pretty_N_char x <> "_"%char.
Proof. unfold pretty_N_char. repeat case_match; discriminate. Qed.

Lemma pretty_N_go_plain x : forall s, plain s -> plain (pretty_N_go x s).
Proof.
  induction (N.lt_wf_0 x) as [x _ IH]; intros s Hs.
  destruct (N.eq_dec x 0%N) as [->|Hx]; [rewrite pretty_N_go_0; exact Hs|].
  rewrite pretty_N_go_step by lia.
  apply IH; [apply N.div_lt; lia|].
  split; [apply pretty_N_char_plain|exact Hs].
Qed.

Lemma pretty_N_plain (x : N) : plain (pretty x).
Proof.
  unfold pretty, pretty_N. case_decide.
  - split; [discriminate|exact I].
  - apply pretty_N_go_plain. exact I.
Qed.

(** The decimal form of a time stamp holds no underscore. *)
Lemma pretty_Z_plain (x : Z) : plain (pretty x).
Proof.
  unfold pretty, pretty_Z. destruct x as [|p|p].
  - split; [discriminate|exact I].
  - apply pretty_N_plain.
  - change ("-" ++ pretty (N.pos p)) with (String "-"%char (pretty (N.pos p))).
    split; [discriminate|apply pretty_N_plain].
Qed.

Lemma append_cons c (a b : string) : String c a ++ b = String c (a ++ b).
Proof. reflexivity. Qed.

Lemma append_empty_l (b : string) : "" ++ b = b.
Proof. reflexivity. Qed.

(** Two texts cut at an underscore agree on both sides when the parts before
    the underscore hold none. *)
Lemma split_at_underscore a : forall a' b b',
  plain a -> plain a' -> a ++ "_" ++ b = a' ++ "_" ++ b' -> a = a' /\ b = b'.
Proof.
  induction a as [|c a IH]; intros [|c' a'] b b' Ha Ha' H;
    rewrite ?append_cons, ?append_empty_l in H.
  - injection H as ->. auto.
  - exfalso. injection H as Hc _. destruct Ha' as [Hc' _]. congruence.
  - exfalso. injection H as Hc _. destruct Ha as [Hc' _]. congruence.
  - injection H as -> H. destruct Ha as [_ Ha], Ha' as [_ Ha'].
    destruct (IH a' b b' Ha Ha' H) as [-> ->]. auto.
Qed.

Lemma length_append (a b : string) :
  String.length (a ++ b) = (String.length a + String.length b)%nat.
Proof.
  induction a as [|c a IH]; [reflexivity|].
  rewrite append_cons. cbn [String.length]. rewrite IH. reflexivity.
Qed.

(** A common ending can be cancelled. *)
Lemma append_cancel_r a : forall a' b, a ++ b = a' ++ b -> a = a'.
Proof.
  induction a as [|c a IH]; intros [|c' a'] b H.
  - reflexivity.
  - exfalso. apply (f_equal String.length) in H.
    rewrite !length_append in H. cbn [String.length] in H. lia.
  - exfalso. apply (f_equal String.length) in H.
    rewrite !length_append in H. cbn [String.length] in H. lia.
  - rewrite !append_cons in H.
    injection H as -> H. rewrite (IH a' b H). reflexivity.
Qed.

(** X5.  The name of the temporary file determines both the time stamp and
    the random suffix it was built from: two calls share a file name, and so
    a file, only if they agree on both. *)
Theorem tempFileName_inj stamp1 suffix1 stamp2 suffix2 :
  tempFileName stamp1 suffix1 = tempFileName stamp2 suffix2 ->
  stamp1 = stamp2 /\ suffix1 = suffix2.
Proof.
  unfold tempFileName. intros H.
  apply (inj (String.app "mcp_mathematica_")) in H.
  apply split_at_underscore in H; [|apply pretty_Z_plain..].
  destruct H as [Hs Hr].
  split; [exact (inj pretty _ _ Hs)|exact (append_cancel_r _ _ _ Hr)].
Qed.

(** Two names built in the same millisecond. *)
Lemma tempFileName_inj_witness : 1700000000000%Z = 1700000000000%Z /\ "k3x9a" = "k3x9a".
Proof.
  apply (tempFileName_inj 1700000000000 "k3x9a" 1700000000000 "k3x9a"). reflexivity.
Defined.

(** A successful run: the engine is the third event, after the write. *)
Lemma executeMathematicaCode_order_witness :
  exists i, (i < 2)%nat /\
    snd (executeMathematicaCode "2 + 2" "text" reachable []) !! i =
      Some (EvWriteFile (tempFilePath reachable []) "2 + 2" None).
Proof.
  apply (proj1 (executeMathematicaCode_order "2 + 2" "text" reachable []) 2%nat
           (command "-format text" (tempFilePath reachable [])) (Exited ("4" ++ nl) "")).
  reflexivity.
Defined.

End AdapterExtras.

(** ** Further properties of the verifier and the handler *)

Module HandlerExtras.
Import Js Host Server Trace Runs Worlds MoreWorlds Observations Registry Checks RunFacts.

Lemma probe_true_reached t0 : probe true t0 -> probe_reached t0.
Proof.
  intros P. inversion P; subst. exists out, err. cbn. auto.
Qed.

Lemma probe_reached_app t0 t : probe_reached t0 -> probe_reached (t0 ++ t)%list.
Proof. intros (out & err & H). exists out, err. apply in_or_app. auto. Qed.

Lemma probe_false_not_reached t0 : probe false t0 -> ~ probe_reached t0.
Proof.
  intros P (out & err & H). inversion P; subst.
  cbn in H. destruct H as [H|[H|[H|[]]]]; discriminate H.
Qed.

Lemma probe_files b t0 :
  probe b t0 -> spawned t0 = [probe_command] /\ written t0 = [] /\ unlinked t0 = [].
Proof. intros [out err|m]; repeat split. Qed.

Lemma probe_true_clean t0 : probe true t0 -> ~ some_failure t0.
Proof.
  intros P (m & H). inversion P; subst.
  repeat (apply Exists_cons in H; destruct H as [H|H]; cbn in H; try contradiction).
  inversion H.
Qed.

Lemma probe_false_failure t0 : probe false t0 -> some_failure t0.
Proof.
  intros P. inversion P; subst. exists m.
  apply Exists_cons_tl, Exists_cons_hd. reflexivity.
Qed.

Lemma some_failure_app t1 t2 :
  some_failure (t1 ++ t2)%list <-> some_failure t1 \/ some_failure t2.
Proof.
  split.
  - intros (m & H). apply Exists_app in H. destruct H as [H|H]; [left|right]; exists m; exact H.
  - intros [(m & H)|(m & H)]; exists m; apply Exists_app; auto.
Qed.

Lemma some_failure_log type msg t : some_failure (EvLog type msg :: t) <-> some_failure t.
Proof.
  split.
  - intros (m & H). apply Exists_cons in H. destruct H as [H|H]; [contradiction|].
    exists m. exact H.
  - intros (m & H). exists m. apply Exists_cons_tl. exact H.
Qed.

Lemma some_failure_nil : ~ some_failure [].
Proof. intros (m & H). inversion H. Qed.

Lemma some_failure_closing c : ~ some_failure (closing_of c).
Proof.
  destruct c; cbn [closing_of]; [apply some_failure_nil|].
  intros H. apply some_failure_log in H. exact (some_failure_nil H).
Qed.

(** The adapter threw exactly when something failed during its run. *)
Lemma executeMathematicaCode_failure_iff code format env h :
  some_failure (snd (executeMathematicaCode code format env h)) <->
  exists e, fst (executeMathematicaCode code format env h) = Throw e.
Proof.
  split.
  - intros (m & H). eexists. apply (executeMathematicaCode_failed _ _ _ _ _ H).
  - intros (e & H). exact (executeMathematicaCode_throw_failed _ _ _ _ _ H).
Qed.

(** The same for the verifier given at least two steps. *)
Lemma verifyDerivation_failure_iff steps format env h :
  (2 <= length steps)%nat ->
  some_failure (snd (verifyDerivation steps format env h)) <->
  exists e, fst (verifyDerivation steps format env h) = Throw e.
Proof.
  intros Hlen. split.
  - intros (m & H). eexists. apply (verifyDerivation_failed _ _ _ _ _ H).
  - intros (e & H). rewrite (verifyDerivation_run steps format env h Hlen) in *.
    set (inner := executeMathematicaCode _ format env _) in *.
    destruct (fst inner) as [result|error] eqn:Hinner; [discriminate H|].
    cbn [snd]. apply some_failure_log, some_failure_app. left.
    apply executeMathematicaCode_failure_iff. exists error. exact Hinner.
Qed.

(** What the adapter returned is the trimmed output of its engine run. *)
Lemma executeMathematicaCode_normal code format env h result :
  fst (executeMathematicaCode code format env h) = Normal result ->
  exists out err,
    result = trim out /\
    In (EvExec (command (formatOption format) (tempFilePath env h)) (Exited out err))
       (snd (executeMathematicaCode code format env h)).
Proof.
  intros H.
  destruct (executeMathematicaCode_run code format env h) as (body & tail & Ht & Ha & _).
  rewrite H in Ha. rewrite Ht. inversion Ha; subst.
  exists out, err. split; [reflexivity|].
  apply in_or_app. left. cbn. auto.
Qed.

Lemma verifyDerivation_normal steps format env h result :
  fst (verifyDerivation steps format env h) = Normal result ->
  exists out err,
    result = trim out /\
    In (EvExec (command (formatOption format)
                  (tempFilePath env
                     (h ++ [EvLog "API" "Verifying mathematical derivation"])%list))
               (Exited out err))
       (snd (verifyDerivation steps format env h)).
Proof.
  intros H.
  destruct (Nat.lt_ge_cases (length steps) 2) as [Hlt|Hge].
  - rewrite (verifyDerivation_short _ format env h Hlt) in H. discriminate H.
  - rewrite (verifyDerivation_run steps format env h Hge) in *.
    set (inner := executeMathematicaCode _ format env _) in *.
    destruct (fst inner) as [r|e] eqn:Hinner; [|discriminate H].
    injection H as <-.
    destruct (executeMathematicaCode_normal _ _ _ _ _ Hinner) as (out & err & Hr & Hin).
    exists out, err. split; [exact Hr|]. cbn [snd]. right. exact Hin.
Qed.

(** A dispatch that throws has only logged; the thrown value tells which
    of the four ways it went. *)
Lemma dispatched_throw request env h e td :
  dispatched request env h (Throw e) td ->
  (spawned td = [] /\ written td = [] /\ unlinked td = []) /\
  ((name request = "execute_mathematica" /\
    e = McpError InvalidParams "Mathematica code is required") \/
   (name request = "verify_derivation" /\
    e = McpError InvalidParams "At least two derivation steps are required") \/
   (name request <> "execute_mathematica" /\ name request <> "verify_derivation" /\
    e = McpError MethodNotFound ("Unknown tool: " ++ name request)) \/
   (e = TypeError "Cannot convert object to primitive value" /\
    ((name request = "execute_mathematica" /\
      (String_ (argument request "code") = None \/
       String_ (or_else (argument request "format") (JStr "text")) = None)) \/
     (name request = "verify_derivation" /\
      String_ (or_else (argument request "format") (JStr "text")) = None)))).
Proof.
  intros D.
  inversion D; subst;
    try (subst inner; destruct (fst _); discriminate);
    (split; [repeat split|]); auto 7.
Qed.

(** Why the handler threw, and that the probe had succeeded. *)
Lemma handler_throws_before_work_aux request env h e :
  fst (handler request env h) = Throw e ->
  exists t0 td,
    probe true t0 /\ snd (handler request env h) = (t0 ++ td)%list /\
    dispatched request env (h ++ t0)%list (Throw e) td.
Proof.
  intros He.
  destruct (handler_handled request env h)
    as (b & t0 & Hp & [(-> & Hrun)|(-> & r & td & D & Hrun)]);
    rewrite Hrun in *; cbn [fst snd] in *; [discriminate He|].
  subst r. exists t0, td. auto.
Qed.

(** X7.  The handler throws in four situations only, all of them after a
    successful probe and before any work: an empty code, steps that are not
    an array of at least two elements, an unknown tool name, and a [code] or
    [format] argument that [String] cannot convert (a [TypeError]).  By then
    it has spawned nothing but the probe and has written and deleted no
    file.  It never throws an [InternalError]. *)
Theorem handler_throws_before_work request env h e :
  fst (handler request env h) = Throw e ->
  ((name request = "execute_mathematica" /\
    e = McpError InvalidParams "Mathematica code is required") \/
   (name request = "verify_derivation" /\
    e = McpError InvalidParams "At least two derivation steps are required") \/
   (name request <> "execute_mathematica" /\ name request <> "verify_derivation" /\
    e = McpError MethodNotFound ("Unknown tool: " ++ name request)) \/
   (e = TypeError "Cannot convert object to primitive value" /\
    ((name request = "execute_mathematica" /\
      (String_ (argument request "code") = None \/
       String_ (or_else (argument request "format") (JStr "text")) = None)) \/
     (name request = "verify_derivation" /\
      String_ (or_else (argument request "format") (JStr "text")) = None)))) /\
  probe_reached (snd (handler request env h)) /\
  spawned (snd (handler request env h)) = ["wolframscript -help"] /\
  written (snd (handler request env h)) = [] /\
  unlinked (snd (handler request env h)) = [].
Proof.
  intros He.
  destruct (handler_throws_before_work_aux request env h e He) as (t0 & td & Hp & -> & D).
  destruct (dispatched_throw _ _ _ _ _ D) as ((Hs & Hw & Hu) & Hwhy).
  destruct (probe_files _ _ Hp) as (Ps & Pw & Pu).
  rewrite spawned_app, written_app, unlinked_app, Hs, Hw, Hu, Ps, Pw, Pu.
  split; [exact Hwhy|].
  split; [apply probe_reached_app, probe_true_reached; exact Hp|].
  repeat split.
Qed.

(** A [code] that cannot be converted, with the engine installed. *)
Lemma handler_throws_before_work_witness :
  spawned (snd (handler opaque_code reachable [])) = ["wolframscript -help"] /\
  written (snd (handler opaque_code reachable [])) = [].
Proof.
  destruct (handler_throws_before_work opaque_code reachable []
              (TypeError "Cannot convert object to primitive value") eq_refl)
    as (_ & _ & Hs & Hw & _).
  split; [exact Hs|exact Hw].
Defined.

(** X8.  A reply returned by the handler always holds exactly one block, of
    type [text], and its [isError] is either set to [true] or absent.  It is
    set exactly when a child process or the write of the temporary file
    failed during the call. *)
Theorem reply_flagged_iff_failure request env h reply :
  fst (handler request env h) = Normal reply ->
  one_text_block reply = true /\
  (isError reply = Some true \/ isError reply = None) /\
  (isError reply = Some true <-> some_failure (snd (handler request env h))).
Proof.
  intros Hr.
  destruct (handler_handled request env h)
    as (b & t0 & Hp & [(-> & Hrun)|(-> & r & td & D & Hrun)]);
    rewrite Hrun in *; clear Hrun; cbn [fst snd] in *.
  { injection Hr as <-. repeat split; auto.
    intros _. exact (probe_false_failure _ Hp). }
  pose proof (probe_true_clean _ Hp) as Hclean.
  subst r. rewrite some_failure_app.
  inversion D as [ | | code format Hn Hc Hne Hf | | | format Hn Hf Hb | ]; subst inner.
  - (* the adapter ran *)
    pose proof (executeMathematicaCode_failure_iff code format env
                  (h ++ t0 ++ [EvLog "Tool" "Executing execute_mathematica tool"])%list) as Hiff.
    rewrite app_assoc in Hiff.
    set (inner := executeMathematicaCode code format env _) in *.
    rewrite some_failure_log, some_failure_app.
    pose proof (some_failure_closing (fst inner)) as Hcl.
    destruct (fst inner) as [result|error]; cbn [reply_of] in *;
      match goal with H : Normal _ = Normal reply |- _ => injection H as <- end;
      cbn [isError one_text_block success failure content type String.eqb Ascii.eqb Bool.eqb].
    + repeat split; auto; [discriminate|].
      intros [H|[H|H]]; try contradiction.
      apply Hiff in H. destruct H as (e & He). discriminate He.
    + repeat split; auto. intros _. right. left. apply Hiff. eauto.
  - (* the verifier ran *)
    pose proof (HandlerProperties.steps_accepted_length request Hb) as Hlen.
    pose proof (verifyDerivation_failure_iff (elements (argument request "steps")) format env
                  (h ++ t0 ++ [EvLog "Tool" "Executing verify_derivation tool"])%list Hlen)
      as Hiff.
    rewrite app_assoc in Hiff.
    set (inner := verifyDerivation _ format env _) in *.
    rewrite some_failure_log, some_failure_app.
    pose proof (some_failure_closing (fst inner)) as Hcl.
    destruct (fst inner) as [result|error]; cbn [reply_of] in *;
      match goal with H : Normal _ = Normal reply |- _ => injection H as <- end;
      cbn [isError one_text_block success failure content type String.eqb Ascii.eqb Bool.eqb].
    + repeat split; auto; [discriminate|].
      intros [H|[H|H]]; try contradiction.
      apply Hiff in H. destruct H as (e & He). discriminate He.
    + repeat split; auto. intros _. right. left. apply Hiff. eauto.
Qed.

(** The engine rejects the program of a call. *)
Lemma reply_flagged_iff_failure_witness :
  exists reply,
    fst (handler two_plus_two failing_engine []) = Normal reply /\
    one_text_block reply = true.
Proof.
  eexists. split; [reflexivity|].
  eapply (reply_flagged_iff_failure two_plus_two failing_engine []). reflexivity.
Defined.

(** X9.  A reply without the error flag carries, as its one text block, the
    trimmed standard output of the call's engine run.  That run was the
    command [wolframscript], the flag that the converted [format] argument
    selects, [-file] and, between double quotes, the path of the one file
    the call wrote. *)
Theorem unflagged_reply_is_engine_output request env h reply :
  fst (handler request env h) = Normal reply ->
  isError reply <> Some true ->
  exists format out err path data,
    String_ (or_else (argument request "format") (JStr "text")) = Some format /\
    written (snd (handler request env h)) = [(path, data)] /\
    In (EvExec ("wolframscript " ++ formatOption format ++ " -file "
                  ++ String "034"%char "" ++ path ++ String "034"%char "")
               (Exited out err))
       (snd (handler request env h)) /\
    reply = {| content := [{| type := "text"; text := trim out |}]; isError := None |}.
Proof.
  intros Hr Hflag.
  destruct (handler_handled request env h)
    as (b & t0 & Hp & [(-> & Hrun)|(-> & r & td & D & Hrun)]);
    rewrite Hrun in *; clear Hrun; cbn [fst snd] in *.
  { injection Hr as <-. exfalso. apply Hflag. reflexivity. }
  destruct (probe_files _ _ Hp) as (_ & Pw & _).
  rewrite written_app, Pw. cbn [app]. subst r.
  inversion D as [ | | code format Hn Hc Hne Hf inner Hreply Htd | |
                 | format Hn Hf Hb inner Hreply Htd | ]; subst td; subst inner.
  - pose proof (executeMathematicaCode_normal code format env
                  ((h ++ t0) ++ [EvLog "Tool" "Executing execute_mathematica tool"])%list)
      as Hnormal.
    pose proof (proj1 (executeMathematicaCode_files code format env
                  ((h ++ t0) ++ [EvLog "Tool" "Executing execute_mathematica tool"])%list))
      as Hfiles.
    set (inner := executeMathematicaCode code format env _) in *.
    destruct (fst inner) as [result|error]; cbn [reply_of closing_of] in *;
      injection Hreply as <-; [|exfalso; apply Hflag; reflexivity].
    destruct (Hnormal result eq_refl) as (out & err & -> & Hin).
    exists format, out, err, (tempFilePath env
      ((h ++ t0) ++ [EvLog "Tool" "Executing execute_mathematica tool"])%list), code.
    split; [exact Hf|]. cbn [written]. rewrite written_app, Hfiles.
    split; [reflexivity|]. split; [|reflexivity].
    apply in_or_app. right. right. apply in_or_app. left. exact Hin.
  - pose proof (HandlerProperties.steps_accepted_length request Hb) as Hlen.
    pose proof (verifyDerivation_normal (elements (argument request "steps")) format env
                  ((h ++ t0) ++ [EvLog "Tool" "Executing verify_derivation tool"])%list)
      as Hnormal.
    pose proof (verifyDerivation_written (elements (argument request "steps")) format env
                  ((h ++ t0) ++ [EvLog "Tool" "Executing verify_derivation tool"])%list Hlen)
      as Hfiles.
    set (inner := verifyDerivation _ format env _) in *.
    destruct (fst inner) as [result|error]; cbn [reply_of closing_of] in *;
      injection Hreply as <-; [|exfalso; apply Hflag; reflexivity].
    destruct (Hnormal result eq_refl) as (out & err & -> & Hin).
    eexists format, out, err, _, _.
    split; [exact Hf|]. cbn [written]. rewrite written_app, Hfiles.
    split; [reflexivity|]. split; [|reflexivity].
    apply in_or_app. right. right. apply in_or_app. left. exact Hin.
Qed.

(** A call whose [format] is the number zero. *)
Lemma unflagged_reply_is_engine_output_witness :
  exists format out err path data,
    String_ (or_else (argument falsy_format "format") (JStr "text")) = Some format /\
    written (snd (handler falsy_format reachable [])) = [(path, data)] /\
    In (EvExec ("wolframscript " ++ formatOption format ++ " -file "
                  ++ String "034"%char "" ++ path ++ String "034"%char "")
               (Exited out err))
       (snd (handler falsy_format reachable [])) /\
    success "4" =
      {| content := [{| type := "text"; text := trim out |}]; isError := None |}.
Proof.
  apply (unflagged_reply_is_engine_output falsy_format reachable [] (success "4")).
  - reflexivity.
  - discriminate.
Defined.

(** X10.  Once the probe has succeeded and the [format] argument has been
    converted, an [execute_mathematica] call is rejected with
    [InvalidParams] exactly when [String(code)] is the empty text: for the
    empty string and for an empty array, for instance, but not for a missing
    or [null] code. *)
Theorem code_rejected_iff_empty request env h format :
  name request = "execute_mathematica" ->
  String_ (or_else (argument request "format") (JStr "text")) = Some format ->
  probe_reached (snd (handler request env h)) ->
  (fst (handler request env h) =
     Throw (McpError InvalidParams "Mathematica code is required") <->
   String_ (argument request "code") = Some "").
Proof.
  intros Hn Hformat Hreach.
  destruct (handler_handled request env h)
    as (b & t0 & Hp & [(-> & Hrun)|(-> & r & td & D & Hrun)]);
    rewrite Hrun in *; clear Hrun; cbn [fst snd] in *.
  { exfalso. exact (probe_false_not_reached _ Hp Hreach). }
  inversion D as [Hn' Hnone | format' Hn' Hc Hf | code format' Hn' Hc Hne Hf
                 | | | | ]; subst; try congruence.
  - destruct Hnone as [Hnone|Hnone]; [|unfold format_of in Hnone; congruence].
    split; intros H; [discriminate H|congruence].
  - split; auto.
  - subst inner. split; intros H; [|congruence].
    destruct (fst (executeMathematicaCode _ _ env _)); discriminate H.
Qed.

(** An empty array given as the code. *)
Lemma code_rejected_iff_empty_witness :
  fst (handler empty_array_code reachable []) =
    Throw (McpError InvalidParams "Mathematica code is required").
Proof.
  apply (code_rejected_iff_empty empty_array_code reachable [] "text").
  - reflexivity.
  - reflexivity.
  - exists ("4" ++ nl), "". vm_compute. auto.
  - reflexivity.
Defined.

(** X11.  Once the probe has succeeded and the [format] argument has been
    converted, a [verify_derivation] call is rejected with [InvalidParams]
    exactly when [steps] is not an array of at least two elements; missing
    steps are rejected, and the elements of an accepted array are not
    inspected. *)
Theorem steps_rejected_iff_short request env h format :
  name request = "verify_derivation" ->
  String_ (or_else (argument request "format") (JStr "text")) = Some format ->
  probe_reached (snd (handler request env h)) ->
  (fst (handler request env h) =
     Throw (McpError InvalidParams "At least two derivation steps are required") <->
   ~ exists elems, argument request "steps" = JArr elems /\ (2 <= length elems)%nat).
Proof.
  intros Hn Hformat Hreach.
  destruct (handler_handled request env h)
    as (b & t0 & Hp & [(-> & Hrun)|(-> & r & td & D & Hrun)]);
    rewrite Hrun in *; clear Hrun; cbn [fst snd] in *.
  { exfalso. exact (probe_false_not_reached _ Hp Hreach). }
  inversion D as [ | | | Hn' Hnone | format' Hn' Hf Hb | format' Hn' Hf Hb | ];
    subst; try congruence.
  - unfold format_of in Hnone. congruence.
  - split; [|reflexivity]. intros _ (elems & Hs & Hlen).
    unfold steps_rejected in Hb. rewrite Hs in Hb.
    cbn [truthy isArray elements negb orb] in Hb.
    apply Nat.ltb_lt in Hb. lia.
  - subst inner. split.
    + intros H. destruct (fst (verifyDerivation _ _ env _)); discriminate H.
    + intros Hnot. exfalso. apply Hnot.
      pose proof (HandlerProperties.steps_accepted_length request Hb) as Hlen.
      unfold steps_rejected in Hb.
      destruct (argument request "steps") as [| |b|n|s0|elems|props];
        cbn [truthy isArray elements negb orb] in Hb;
        try (rewrite ?orb_true_r in Hb; discriminate Hb).
      exists elems. split; [reflexivity|exact Hlen].
Qed.

(** A call without [steps]. *)
Lemma steps_rejected_iff_short_witness :
  fst (handler missing_steps reachable []) =
    Throw (McpError InvalidParams "At least two derivation steps are required").
Proof.
  apply (steps_rejected_iff_short missing_steps reachable [] "latex").
  - reflexivity.
  - reflexivity.
  - exists ("4" ++ nl), "". vm_compute. auto.
  - intros (elems & H & _). vm_compute in H. discriminate H.
Defined.

(** X12.  A call spawns [wolframscript -help] and then at most one more
    process.  That process is the command [wolframscript], the flag that
    the converted [format] argument selects, [-file] and, between double
    quotes, the path of the one file the call wrote.  When the [format]
    argument is absent or falsy (null, false, zero, the empty string) the
    command reads [wolframscript -format text -file] and the quoted path. *)
Theorem handler_spawns request env h :
  (spawned (snd (handler request env h)) = ["wolframscript -help"] \/
   exists format path data,
     String_ (or_else (argument request "format") (JStr "text")) = Some format /\
     written (snd (handler request env h)) = [(path, data)] /\
     spawned (snd (handler request env h)) =
       ["wolframscript -help";
        "wolframscript " ++ formatOption format ++ " -file "
          ++ String "034"%char "" ++ path ++ String "034"%char ""]) /\
  (truthy (argument request "format") = false ->
   forall c, In c (spawned (snd (handler request env h))) ->
             c = "wolframscript -help" \/
             exists path, c = "wolframscript -format text -file "
                                ++ String "034"%char "" ++ path ++ String "034"%char "").
Proof.
  assert (Hmain :
    spawned (snd (handler request env h)) = ["wolframscript -help"] \/
    exists format path data,
      String_ (or_else (argument request "format") (JStr "text")) = Some format /\
      written (snd (handler request env h)) = [(path, data)] /\
      spawned (snd (handler request env h)) =
        ["wolframscript -help";
         "wolframscript " ++ formatOption format ++ " -file "
           ++ String "034"%char "" ++ path ++ String "034"%char ""]).
  { destruct (handler_handled request env h)
      as (b & t0 & Hp & [(-> & Hrun)|(-> & r & td & D & Hrun)]);
      rewrite Hrun; clear Hrun; cbn [fst snd];
      destruct (probe_files _ _ Hp) as (Ps & Pw & _).
    - left. exact Ps.
    - rewrite spawned_app, written_app, Ps, Pw.
      destruct (HandlerProperties.dispatched_effects request env _ r td D)
        as [(Hs & _)|(format & path & data & Hf & Hw & _ & [Hs|Hs])];
        rewrite Hs; [left; reflexivity|left; reflexivity|].
      right. exists format, path, data. rewrite Hw. repeat split. exact Hf. }
  split; [exact Hmain|].
  intros Hfalsy c Hin.
  destruct Hmain as [Hs|(format & path & data & Hf & _ & Hs)]; rewrite Hs in Hin.
  - destruct Hin as [ <- |[]]. left. reflexivity.
  - destruct Hin as [ <- |[ <- |[]]]; [left; reflexivity|right].
    unfold or_else in Hf. rewrite Hfalsy in Hf. injection Hf as <-.
    exists path. reflexivity.
Qed.

(** A call whose [format] is the number zero: its second process. *)
Lemma handler_spawns_witness :
  "wolframscript -format text -file " ++ String "034"%char ""
    ++ "/tmp/mcp_mathematica_1700000000000_k3x9a.wl" ++ String "034"%char ""
  = "wolframscript -help" \/
  exists path,
    "wolframscript -format text -file " ++ String "034"%char ""
      ++ "/tmp/mcp_mathematica_1700000000000_k3x9a.wl" ++ String "034"%char ""
    = "wolframscript -format text -file " ++ String "034"%char "" ++ path ++ String "034"%char "".
Proof.
  apply (proj2 (handler_spawns falsy_format reachable []) eq_refl).
  vm_compute. auto.
Defined.



End HandlerExtras.

(** ** The registry against the handler, and the tests against both *)

Module RegistryProperties.
Import Js Host Server Trace Runs Worlds MoreWorlds Observations Registry Checks RunFacts.

(** X15.  Listing the tools needs no engine: it only logs and returns the
    fixed registry.  The names it lists are exactly the names the handler
    dispatches: a call is answered with [MethodNotFound] if and only if the
    probe succeeded and the name of the tool is not in the listing. *)
Theorem listed_tools_are_dispatched env0 h0 :
  exists listing,
    listTools env0 h0 = (Normal listing, [EvLog "Tools" "Listing available tools"]) /\
    forall request env h,
      (exists msg, fst (handler request env h) = Throw (McpError MethodNotFound msg)) <->
      (probe_reached (snd (handler request env h)) /\
       ~ In (name request) (toolNames listing)).
Proof.
  eexists. split; [reflexivity|].
  intros request env h.
  change (toolNames _) with ["execute_mathematica"; "verify_derivation"].
  split.
  - intros (msg & H).
    destruct (HandlerExtras.handler_throws_before_work_aux request env h _ H)
      as (t0 & td & Hp & Ht & D).
    destruct (HandlerExtras.dispatched_throw _ _ _ _ _ D)
      as (_ & [(_ & He)|[(_ & He)|[(H1 & H2 & _)|(He & _)]]]); try discriminate He.
    split.
    + rewrite Ht. apply HandlerExtras.probe_reached_app, HandlerExtras.probe_true_reached.
      exact Hp.
    + intros [Hin|[Hin|[]]]; congruence.
  - intros (Hreach & Hnot).
    assert (H1 : name request <> "execute_mathematica") by (intros E; apply Hnot; cbn; auto).
    assert (H2 : name request <> "verify_derivation") by (intros E; apply Hnot; cbn; auto).
    destruct (handler_run request env h) as (b & t0 & _ & Hp & Hrun).
    rewrite Hrun in *. destruct b; cbn [fst snd] in *.
    + rewrite (dispatch_unknown_run request env _ H1 H2). eexists. reflexivity.
    + exfalso. exact (HandlerExtras.probe_false_not_reached _ Hp Hreach).
Qed.

(** The three flags the adapter can select. *)
Lemma formatOption_cases format :
  formatOption format = "-format latex" \/
  formatOption format = "-format mathematica" \/
  formatOption format = "-format text".
Proof.
  unfold formatOption.
  destruct (_ =? "latex")%string; [|destruct (_ =? "mathematica")%string]; auto.
Qed.

(** X16.  The schemas and the adapter agree on the formats.  Every format
    that a listed tool enumerates selects the flag of its own name, the
    declared default is [text], the format applied when the argument is
    absent, and whatever format a call gives, the adapter selects the flag
    of one of the enumerated formats. *)
Theorem enumerated_formats_are_honoured tool :
  In tool (elements tools) ->
  (forall f, In f (formatEnum tool) -> formatOption f = "-format " ++ f) /\
  get (formatSchema tool) "default" = or_else JUndefined (JStr "text") /\
  (forall format, exists f, In f (formatEnum tool) /\ formatOption format = "-format " ++ f).
Proof.
  intros Hin. cbn in Hin. destruct Hin as [ <- | [ <- | [] ] ].
  all: split; [|split; [reflexivity|]].
  all: change (formatEnum _) with ["text"; "latex"; "mathematica"].
  1,3: intros f [ <- | [ <- | [ <- | [] ] ] ]; reflexivity.
  all: intros format;
    destruct (formatOption_cases format) as [ -> | [ -> | -> ] ];
    [ exists "latex" | exists "mathematica" | exists "text" ]; cbn; auto.
Qed.

(** The schema of [verify_derivation] and the format [latex]. *)
Lemma enumerated_formats_are_honoured_witness :
  formatOption "latex" = "-format latex".
Proof.
  apply (enumerated_formats_are_honoured
           (JObj [
              ("name", JStr "verify_derivation");
              ("description", JStr "Verify a mathematical derivation step by step");
              ("inputSchema", JObj [
                 ("type", JStr "object");
                 ("properties", JObj [
                    ("steps", JObj [
                       ("type", JStr "array");
                       ("description",
                        JStr "Array of mathematical expressions representing steps in a derivation");
                       ("items", JObj [("type", JStr "string")])]);
                    ("format", JObj [
                       ("type", JStr "string");
                       ("description", JStr "Output format (text, latex, or mathematica)");
                       ("enum", JArr [JStr "text"; JStr "latex"; JStr "mathematica"]);
                       ("default", JStr "text")])]);
                 ("required", JArr [JStr "steps"])])])).
  - cbn. auto.
  - cbn. auto.
Defined.

(** X17.  The reply to an [execute_mathematica] call in which something
    failed is a returned reply, and it satisfies what the integration test
    of the error case asks (error flag set, text including
    [Error executing Mathematica code]) exactly when the probe had
    succeeded; when the probe itself failed the reply is the notice that the
    engine is unreachable, which that test does not accept. *)
Theorem execute_error_reply_accepted request env h :
  name request = "execute_mathematica" ->
  some_failure (snd (handler request env h)) ->
  exists reply,
    fst (handler request env h) = Normal reply /\
    (accepts_execute_error reply = true <-> probe_reached (snd (handler request env h))).
Proof.
  intros Hn Hfail.
  destruct (handler_handled request env h)
    as (b & t0 & Hp & [(-> & Hrun)|(-> & r & td & D & Hrun)]);
    rewrite Hrun in *; clear Hrun; cbn [fst snd] in *.
  - exists unavailable. split; [reflexivity|]. split.
    + intros H. vm_compute in H. discriminate H.
    + intros H. exfalso. exact (HandlerExtras.probe_false_not_reached _ Hp H).
  - apply HandlerExtras.some_failure_app in Hfail.
    destruct Hfail as [Hfail|Hfail];
      [exfalso; exact (HandlerExtras.probe_true_clean _ Hp Hfail)|].
    pose proof (HandlerExtras.probe_reached_app t0 td
                  (HandlerExtras.probe_true_reached _ Hp)) as Hreach.
    inversion D as [ | | code format Hn' Hc Hne Hf inner Hreply Htd | | | | ];
      subst; try congruence;
      try (exfalso; apply HandlerExtras.some_failure_log in Hfail;
           exact (HandlerExtras.some_failure_nil Hfail)).
    apply HandlerExtras.some_failure_log, HandlerExtras.some_failure_app in Hfail.
    destruct Hfail as [Hfail|Hfail];
      [|exfalso; exact (HandlerExtras.some_failure_closing _ Hfail)].
    apply HandlerExtras.executeMathematicaCode_failure_iff in Hfail.
    destruct Hfail as (e & He).
    try subst inner. rewrite He in Hreach |- *. cbn [reply_of].
    eexists. split; [reflexivity|]. split; [intros _; exact Hreach|intros _].
    cbn [accepts_execute_error isError content failure text].
    apply (StringFacts.includes_app "" "Error executing Mathematica code").
Qed.

(** The engine rejects the program of the call. *)
Lemma execute_error_reply_accepted_witness :
  exists reply,
    fst (handler two_plus_two failing_engine []) = Normal reply /\
    (accepts_execute_error reply = true <->
     probe_reached (snd (handler two_plus_two failing_engine []))).
Proof.
  apply (execute_error_reply_accepted two_plus_two failing_engine []).
  - reflexivity.
  - exists ("Command failed: " ++
            command "-format text" "/tmp/mcp_mathematica_1700000000000_k3x9a.wl").
    vm_compute. do 6 apply Exists_cons_tl. apply Exists_cons_hd. reflexivity.
Defined.

(** A tool that is not listed, with the engine installed. *)
Lemma listed_tools_are_dispatched_witness :
  exists msg, fst (handler unknown_tool reachable []) = Throw (McpError MethodNotFound msg).
Proof.
  destruct (listed_tools_are_dispatched reachable []) as (listing & Hl & H).
  apply H. injection Hl as <-. split.
  - exists ("4" ++ nl), "". vm_compute. auto.
  - vm_compute. intros [H1|[H1|[]]]; discriminate H1.
Defined.

End RegistryProperties.
